(** * abctl: [local install]

    A shallow embedding of [internal/cmd/local/local_install.go]: the
    volume-mount parser, the environment overrides, and the [install]
    command (its pre-run hook and its run function) as a state-and-error
    monad over the collaborators the command calls. *)

From Stdlib Require Import ZArith String Ascii List Lia.
From Stdlib Require Import DecimalString DecimalPos DecimalZ.
From stdpp Require Import base option list strings gmap.

Local Open Scope string_scope.
Local Open Scope Z_scope.

(** ** Go values used by the command *)

(** A Go [string] is a sequence of bytes; [Stdlib.String.string] is a
    sequence of 8-bit characters. *)

Definition colon : ascii := ":"%char.
Definition nl : string := String (ascii_of_nat 10) EmptyString.

(** [%d] of an [int]. *)
Definition fmt_d (n : Z) : string := NilZero.string_of_int (Z.to_int n).

(** A Go [error]: either a plain message, or a message wrapping another
    error ([fmt.Errorf] with [%w]). *)
Inductive error : Type :=
| errorString (msg : string)
| wrapError (msg : string) (err : error).

Definition Error (e : error) : string :=
  match e with
  | errorString msg => msg
  | wrapError msg _ => msg
  end.

Definition Unwrap (e : error) : option error :=
  match e with
  | errorString _ => None
  | wrapError _ err => Some err
  end.

(** ** [strings.Split] with a one-byte separator

    Go's standard library: [Split(s, sep)] slices [s] into all
    substrings separated by [sep]; without any [sep] in [s] the result is
    the one-element slice [[s]]. *)
Module strings.

Fixpoint Split (s : string) (sep : ascii) : list string :=
  match s with
  | EmptyString => [EmptyString]
  | String c rest =>
      if Ascii.eqb c sep then EmptyString :: Split rest sep
      else match Split rest sep with
           | [] => [String c EmptyString]
           | part :: parts => String c part :: parts
           end
  end.

(** [strings.Count] for a one-byte separator. *)
Fixpoint Count (s : string) (sep : ascii) : nat :=
  match s with
  | EmptyString => 0%nat
  | String c rest =>
      if Ascii.eqb c sep then S (Count rest sep) else Count rest sep
  end.

(** [strings.Join] with a one-byte separator. *)
Fixpoint Join (parts : list string) (sep : ascii) : string :=
  match parts with
  | [] => EmptyString
  | [part] => part
  | part :: rest => part ++ String sep (Join rest sep)
  end.

End strings.

(** ** [k8s.ExtraVolumeMount] and [parseVolumeMounts] *)

Record ExtraVolumeMount : Type := {
  HostPath : string;
  ContainerPath : string
}.

(** The zero value [make] fills the slice with. *)
Definition zeroMount : ExtraVolumeMount :=
  {| HostPath := EmptyString; ContainerPath := EmptyString |}.

Definition volumeError (spec : string) : error :=
  errorString
    ("volume " ++ spec ++
     " is not a valid volume spec, must be <HOST_PATH>:<GUEST_PATH>").

(** The body of [for i, spec := range specs]; [mounts] is the slice being
    filled, [i] the index of the head of the remaining [specs].  The
    indices [parts[0]] and [parts[1]] are in range after the length test. *)
Fixpoint parseVolumeMounts_loop (i : nat) (specs : list string)
    (mounts : list ExtraVolumeMount) : list ExtraVolumeMount * option error :=
  match specs with
  | [] => (mounts, None)
  | spec :: rest =>
      let parts := strings.Split spec colon in
      if negb (Nat.eqb (length parts) 2) then ([], Some (volumeError spec))
      else
        parseVolumeMounts_loop (S i) rest
          (<[ i := {| HostPath := nth 0 parts EmptyString;
                      ContainerPath := nth 1 parts EmptyString |} ]> mounts)
  end.

(** [parseVolumeMounts] returns Go's pair [(mounts, err)]; the [nil]
    slice is the empty list. *)
Definition parseVolumeMounts (specs : list string)
    : list ExtraVolumeMount * option error :=
  let mounts := replicate (length specs) zeroMount in
  parseVolumeMounts_loop 0 specs mounts.

(** ** [os.Getenv] and [envOverride] *)

Module os.

(** The process environment maps variable names to values; [Getenv]
    returns the empty string for a variable that is not present. *)
Definition Getenv (environ : gmap string string) (key : string) : string :=
  default EmptyString (environ !! key).

End os.

Definition envBasicAuthUser : string := "ABCTL_LOCAL_INSTALL_USERNAME".
Definition envBasicAuthPass : string := "ABCTL_LOCAL_INSTALL_PASSWORD".
Definition envDockerServer : string := "ABCTL_LOCAL_INSTALL_DOCKER_SERVER".
Definition envDockerUser : string := "ABCTL_LOCAL_INSTALL_DOCKER_USERNAME".
Definition envDockerPass : string := "ABCTL_LOCAL_INSTALL_DOCKER_PASSWORD".
Definition envDockerEmail : string := "ABCTL_LOCAL_INSTALL_DOCKER_EMAIL".

(** [envOverride(original *string, env string)]: the pointer write is the
    returned string, the new content of [*original]. *)
Definition envOverride (environ : gmap string string)
    (original : string) (env : string) : string :=
  let v := os.Getenv environ env in
  if negb (String.eqb v EmptyString) then v else original.

(** ** Collaborators *)

Module docker.

(** [*docker.Docker]: the one method the command calls.  [Port] returns
    Go's pair [(int, error)]. *)
Record Docker : Type := {
  Port : string -> Z * option error
}.

Record Version : Type := {
  version : string;
  Arch : string;
  Platform : string
}.

End docker.

Module k8s.

Inductive ProviderName : Type := Kind | OtherProvider.

Record Provider : Type := {
  Name : ProviderName;
  ClusterName : string
}.

(** The [k8s.Cluster] interface, as far as the command uses it. *)
Record Cluster : Type := {
  Exists : bool;
  Create : Z -> list ExtraVolumeMount -> option error
}.

End k8s.

Module local.

Record InstallOpts : Type := {
  HelmChartVersion : string;
  ValuesFile : string;
  Secrets : list string;
  Migrate : bool;
  Docker : option docker.Docker;
  Host : string;

  DockerServer : string;
  DockerUser : string;
  DockerPass : string;
  DockerEmail : string;

  NoBrowser : bool;
  LowResourceMode : bool;
  InsecureCookies : bool
}.

(** Assignments to single fields: [opts.F = v]. *)
Definition set_HelmChartVersion (v : string) (o : InstallOpts) : InstallOpts :=
  {| HelmChartVersion := v; ValuesFile := ValuesFile o;
     Secrets := Secrets o; Migrate := Migrate o; Docker := Docker o;
     Host := Host o; DockerServer := DockerServer o;
     DockerUser := DockerUser o; DockerPass := DockerPass o;
     DockerEmail := DockerEmail o; NoBrowser := NoBrowser o;
     LowResourceMode := LowResourceMode o;
     InsecureCookies := InsecureCookies o |}.

Definition set_DockerServer (v : string) (o : InstallOpts) : InstallOpts :=
  {| HelmChartVersion := HelmChartVersion o; ValuesFile := ValuesFile o;
     Secrets := Secrets o; Migrate := Migrate o; Docker := Docker o;
     Host := Host o; DockerServer := v;
     DockerUser := DockerUser o; DockerPass := DockerPass o;
     DockerEmail := DockerEmail o; NoBrowser := NoBrowser o;
     LowResourceMode := LowResourceMode o;
     InsecureCookies := InsecureCookies o |}.

Definition set_DockerUser (v : string) (o : InstallOpts) : InstallOpts :=
  {| HelmChartVersion := HelmChartVersion o; ValuesFile := ValuesFile o;
     Secrets := Secrets o; Migrate := Migrate o; Docker := Docker o;
     Host := Host o; DockerServer := DockerServer o;
     DockerUser := v; DockerPass := DockerPass o;
     DockerEmail := DockerEmail o; NoBrowser := NoBrowser o;
     LowResourceMode := LowResourceMode o;
     InsecureCookies := InsecureCookies o |}.

Definition set_DockerPass (v : string) (o : InstallOpts) : InstallOpts :=
  {| HelmChartVersion := HelmChartVersion o; ValuesFile := ValuesFile o;
     Secrets := Secrets o; Migrate := Migrate o; Docker := Docker o;
     Host := Host o; DockerServer := DockerServer o;
     DockerUser := DockerUser o; DockerPass := v;
     DockerEmail := DockerEmail o; NoBrowser := NoBrowser o;
     LowResourceMode := LowResourceMode o;
     InsecureCookies := InsecureCookies o |}.

Definition set_DockerEmail (v : string) (o : InstallOpts) : InstallOpts :=
  {| HelmChartVersion := HelmChartVersion o; ValuesFile := ValuesFile o;
     Secrets := Secrets o; Migrate := Migrate o; Docker := Docker o;
     Host := Host o; DockerServer := DockerServer o;
     DockerUser := DockerUser o; DockerPass := DockerPass o;
     DockerEmail := v; NoBrowser := NoBrowser o;
     LowResourceMode := LowResourceMode o;
     InsecureCookies := InsecureCookies o |}.

(** [*local.Command]: the one method the command calls. *)
Record Command : Type := {
  Install : InstallOpts -> option error
}.

End local.

(** The four [envOverride] calls of [RunE], in source order, each writing
    through a pointer to one field of [opts]. *)
Definition applyEnvOverrides (environ : gmap string string)
    (opts : local.InstallOpts) : local.InstallOpts :=
  let opts := local.set_DockerServer
                (envOverride environ (local.DockerServer opts) envDockerServer) opts in
  let opts := local.set_DockerUser
                (envOverride environ (local.DockerUser opts) envDockerUser) opts in
  let opts := local.set_DockerPass
                (envOverride environ (local.DockerPass opts) envDockerPass) opts in
  let opts := local.set_DockerEmail
                (envOverride environ (local.DockerEmail opts) envDockerEmail) opts in
  opts.

(** Lines 168-170 of [RunE]: the chart version [latest] is replaced by the
    empty string. *)
Definition normalizeChartVersion (opts : local.InstallOpts) : local.InstallOpts :=
  if String.eqb (local.HelmChartVersion opts) "latest"
  then local.set_HelmChartVersion EmptyString opts
  else opts.

(** ** The command's flags *)

(** The flag variables of [NewCmdInstall], which the closures capture. *)
Record Flags : Type := {
  flagChartValuesFile : string;
  flagChartSecrets : list string;
  flagChartVersion : string;
  flagMigrate : bool;
  flagPort : Z;
  flagHost : string;
  flagExtraVolumeMounts : list string;

  flagDockerServer : string;
  flagDockerUser : string;
  flagDockerPass : string;
  flagDockerEmail : string;

  flagNoBrowser : bool;
  flagLowResourceMode : bool;
  flagInsecureCookies : bool
}.

(** [flagPort = p] *)
Definition set_flagPort (p : Z) (f : Flags) : Flags :=
  {| flagChartValuesFile := flagChartValuesFile f;
     flagChartSecrets := flagChartSecrets f;
     flagChartVersion := flagChartVersion f;
     flagMigrate := flagMigrate f;
     flagPort := p;
     flagHost := flagHost f;
     flagExtraVolumeMounts := flagExtraVolumeMounts f;
     flagDockerServer := flagDockerServer f;
     flagDockerUser := flagDockerUser f;
     flagDockerPass := flagDockerPass f;
     flagDockerEmail := flagDockerEmail f;
     flagNoBrowser := flagNoBrowser f;
     flagLowResourceMode := flagLowResourceMode f;
     flagInsecureCookies := flagInsecureCookies f |}.

(** What the user wrote on the command line, after cobra parsed it: for
    each flag, [Some v] when the flag was given and [None] when it was
    not (cobra's [Changed]). *)
Record CommandLine : Type := {
  arg_port : option Z;
  arg_host : option string;
  arg_chart_version : option string;
  arg_values : option string;
  arg_secret : option (list string);
  arg_volume : option (list string);
  arg_migrate : option bool;
  arg_docker_server : option string;
  arg_docker_username : option string;
  arg_docker_password : option string;
  arg_docker_email : option string;
  arg_no_browser : option bool;
  arg_low_resource_mode : option bool;
  arg_insecure_cookies : option bool
}.

(** The flag definitions at the end of [NewCmdInstall]: each variable holds
    the given value or the declared default.  [IngressPort] stands for the
    constant [kind.IngressPort]. *)
Definition parseFlags (IngressPort : Z) (cl : CommandLine) : Flags :=
  {| flagPort := default IngressPort (arg_port cl);
     flagHost := default "localhost" (arg_host cl);
     flagChartVersion := default "latest" (arg_chart_version cl);
     flagChartValuesFile := default EmptyString (arg_values cl);
     flagChartSecrets := default [] (arg_secret cl);
     flagExtraVolumeMounts := default [] (arg_volume cl);
     flagMigrate := default false (arg_migrate cl);
     flagDockerServer :=
       default "https://index.docker.io/v1/" (arg_docker_server cl);
     flagDockerUser := default EmptyString (arg_docker_username cl);
     flagDockerPass := default EmptyString (arg_docker_password cl);
     flagDockerEmail := default EmptyString (arg_docker_email cl);
     flagNoBrowser := default false (arg_no_browser cl);
     flagLowResourceMode := default false (arg_low_resource_mode cl);
     flagInsecureCookies := default false (arg_insecure_cookies cl) |}.

Module cobra.

(** [MarkFlagsRequiredTogether("docker-username", "docker-password",
    "docker-email")], as cobra's [ValidateFlagGroups] checks it before the
    run function: the flags of the group that were not given are
    collected (in sorted order); the command line is accepted when none
    or all of them are missing. *)
Definition Changed {A} (flag : option A) : bool :=
  match flag with
  | Some _ => true
  | None => false
  end.

Definition requiredTogether_unset (cl : CommandLine) : list string :=
  (if Changed (arg_docker_email cl) then [] else ["docker-email"]) ++
  (if Changed (arg_docker_password cl) then [] else ["docker-password"]) ++
  (if Changed (arg_docker_username cl) then [] else ["docker-username"]).

Definition ValidateFlagGroups (cl : CommandLine) : option error :=
  let unset := requiredTogether_unset cl in
  if Nat.eqb (length unset) 3 || Nat.eqb (length unset) 0 then None
  else
    Some (errorString
      ("if any flags in the group [docker-username docker-password docker-email] are set they must all be set; missing ["
       ++ strings.Join unset " "%char ++ "]")).

End cobra.

Module pterm.

(** The terminal colour codes are not modelled. *)
Definition LightBlue (s : string) : string := s.

End pterm.

(** ** Observable behaviour *)

(** What a run of the command does to the outside: messages (spinner and
    [pterm] printers, without the trailing newline of [Println] and
    [Printfln]), telemetry attributes, and calls to collaborators. *)
Inductive Event : Type :=
| EvSpinnerStart (text : string)
| EvSpinnerUpdateText (text : string)
| EvSpinnerFail (text : string)
| EvSpinnerSuccess (text : string)
| EvError (text : string)
| EvWarning (text : string)
| EvSuccess (text : string)
| EvInfo (text : string)
| EvTelemetryAttr (key val : string)
| EvDockerInstalled
| EvPortAvailable (port : Z)
| EvProviderCluster
| EvDockerNew
| EvDockerPort (container : string)
| EvClusterCreate (port : Z) (mounts : list ExtraVolumeMount)
| EvLocalNew (port : Z)
| EvInstall (opts : local.InstallOpts).

(** The collaborators of one run.  [dockerInstalled] and [portAvailable]
    are functions of the package defined in another file; they can reach
    the package variable [dockerClient], so they take and return it. *)
Record World : Type := {
  environ : gmap string string;
  dockerInstalled :
    option docker.Docker -> (error + docker.Version) * option docker.Docker;
  portAvailable :
    Z -> option docker.Docker -> option error * option docker.Docker;
  provider_Cluster : error + k8s.Cluster;
  docker_New : error + docker.Docker;
  local_New : Z -> error + local.Command
}.

(** The mutable state of a run: the flag variables ([flagPort] is
    assigned by [RunE]) and the package variable [dockerClient]. *)
Record State : Type := {
  flags : Flags;
  dockerClient : option docker.Docker
}.

(** ** A monad for state, events and early return

    A computation takes the state and gives the new state, the events it
    emitted (oldest first), and either a value or the error of a
    [return err] that ended the function. *)

Inductive step (A : Type) : Type :=
| Next (a : A)
| Returned (err : error).
Arguments Next {A} a.
Arguments Returned {A} err.

Definition M (A : Type) : Type := State -> step A * State * list Event.

Definition return_err {A} (err : error) : M A :=
  fun s => (Returned err, s, []).

#[global] Instance M_ret : MRet M := fun A a s => (Next a, s, []).

#[global] Instance M_bind : MBind M := fun A B k m s =>
  match m s with
  | (Next a, s', evs) =>
      match k a s' with
      | (r, s'', evs') => (r, s'', (evs ++ evs')%list)
      end
  | (Returned err, s', evs) => (Returned err, s', evs)
  end.

Definition get_flags : M Flags := fun s => (Next (flags s), s, []).

Definition get_dockerClient : M (option docker.Docker) :=
  fun s => (Next (dockerClient s), s, []).

Definition assign_flagPort (p : Z) : M unit :=
  fun s => (Next tt, {| flags := set_flagPort p (flags s);
                        dockerClient := dockerClient s |}, []).

Definition assign_dockerClient (c : option docker.Docker) : M unit :=
  fun s => (Next tt, {| flags := flags s; dockerClient := c |}, []).

Definition emit (e : Event) : M unit := fun s => (Next tt, s, [e]).

(** What a hook returned: [nil] or an error. *)
Definition returned (r : step unit) : option error :=
  match r with
  | Next _ => None
  | Returned err => Some err
  end.

(** [fmt.Errorf(prefix + ": %w", err)] *)
Definition Errorf_w (prefix : string) (err : error) : error :=
  wrapError (prefix ++ ": " ++ Error err) err.

(** Lines 150-166 of [RunE]: the options literal, from the flag
    variables and the package variable [dockerClient]. *)
Definition buildOpts (f : Flags) (dockerClient : option docker.Docker)
    : local.InstallOpts :=
  {| local.HelmChartVersion := flagChartVersion f;
     local.ValuesFile := flagChartValuesFile f;
     local.Secrets := flagChartSecrets f;
     local.Migrate := flagMigrate f;
     local.Docker := dockerClient;
     local.Host := flagHost f;

     local.DockerServer := flagDockerServer f;
     local.DockerUser := flagDockerUser f;
     local.DockerPass := flagDockerPass f;
     local.DockerEmail := flagDockerEmail f;

     local.NoBrowser := flagNoBrowser f;
     local.LowResourceMode := flagLowResourceMode f;
     local.InsecureCookies := flagInsecureCookies f |}.

(** ** The command *)

Section NewCmdInstall.

Context (IngressPort : Z) (provider : k8s.Provider) (W : World).

Local Abbreviation ClusterName := (k8s.ClusterName provider).

(** [PreRunE] *)
Definition PreRunE : M unit :=
  emit (EvSpinnerStart "Starting installation");;
  emit (EvSpinnerUpdateText "Checking for Docker installation");;
  emit EvDockerInstalled;;
  dc ← get_dockerClient;
  let '(res, dc') := dockerInstalled W dc in
  assign_dockerClient dc';;
  match res with
  | inl err =>
      emit (EvError "Unable to determine if Docker is installed");;
      return_err
        (Errorf_w "unable to determine docker installation status" err)
  | inr dockerVersion =>
      emit (EvTelemetryAttr "docker_version" (docker.version dockerVersion));;
      emit (EvTelemetryAttr "docker_arch" (docker.Arch dockerVersion));;
      emit (EvTelemetryAttr "docker_platform" (docker.Platform dockerVersion));;
      f ← get_flags;
      emit (EvSpinnerUpdateText
              ("Checking if port " ++ fmt_d (flagPort f) ++ " is available"));;
      emit (EvPortAvailable (flagPort f));;
      dc ← get_dockerClient;
      let '(res, dc') := portAvailable W (flagPort f) dc in
      assign_dockerClient dc';;
      match res with
      | Some err =>
          return_err
            (Errorf_w ("port " ++ fmt_d (flagPort f) ++ " is not available") err)
      | None => mret tt
      end
  end.

(** Lines 99-120 of [RunE]: for the kind provider, the port of the
    existing cluster is read from its control-plane container. *)
Definition checkExistingPort : M unit :=
  dc ← get_dockerClient;
  client ← match dc with
           | None =>
               emit EvDockerNew;;
               match docker_New W with
               | inl err =>
                   emit (EvError "Unable to connect to Docker daemon");;
                   return_err (Errorf_w "unable to connect to docker" err)
               | inr c => assign_dockerClient (Some c);; mret c
               end
           | Some c => mret c
           end;
  f ← get_flags;
  let providedPort := flagPort f in
  let container := ClusterName ++ "-control-plane" in
  emit (EvDockerPort container);;
  let '(port, err) := docker.Port client container in
  assign_flagPort port;;
  match err with
  | Some _ =>
      emit (EvWarning
        ("Unable to determine which port the existing cluster was configured to use."
         ++ nl ++
         "Installation will continue but may ultimately fail, in which case it will be necessarily to uninstall first."));;
      assign_flagPort providedPort
  | None => mret tt
  end;;
  f ← get_flags;
  if negb (Z.eqb providedPort (flagPort f)) then
    emit (EvWarning
      ("The existing cluster was found to be using port " ++ fmt_d (flagPort f)
       ++ ", which differs from the provided port " ++ fmt_d providedPort ++ "."
       ++ nl ++
       "The existing port will be used, as changing ports currently requires the existing installation to be uninstalled first."))
  else mret tt.

(** Lines 140-187 of [RunE]: the options are assembled and handed to
    the installer. *)
Definition install : M unit :=
  f ← get_flags;
  emit (EvLocalNew (flagPort f));;
  match local_New W (flagPort f) with
  | inl err =>
      emit (EvError "Failed to initialize 'local' command");;
      return_err (Errorf_w "unable to initialize local command" err)
  | inr lc =>
      dc ← get_dockerClient;
      let opts := buildOpts f dc in
      let opts := normalizeChartVersion opts in
      let opts := applyEnvOverrides (environ W) opts in
      emit (EvInstall opts);;
      match local.Install lc opts with
      | Some err =>
          emit (EvSpinnerFail "Unable to install Airbyte locally");;
          return_err err
      | None =>
          emit (EvSpinnerSuccess
            ("Airbyte installation complete." ++ nl ++
             "  A password may be required to login. The password can by found by running"
             ++ nl ++
             "  the command " ++ pterm.LightBlue "abctl local credentials"))
      end
  end.

(** Lines 93-138 of [RunE]: an existing cluster is validated, a missing
    one is created. *)
Definition provision (cluster : k8s.Cluster) : M unit :=
  if k8s.Exists cluster then
    emit (EvSuccess ("Existing cluster '" ++ ClusterName ++ "' found"));;
    emit (EvSpinnerUpdateText
            ("Validating existing cluster '" ++ ClusterName ++ "'"));;
    match k8s.Name provider with
    | k8s.Kind => checkExistingPort
    | k8s.OtherProvider => mret tt
    end;;
    emit (EvSuccess ("Cluster '" ++ ClusterName ++ "' validation complete"))
  else
    emit (EvInfo
      ("No existing cluster found, cluster '" ++ ClusterName ++ "' will be created"));;
    emit (EvSpinnerUpdateText ("Creating cluster '" ++ ClusterName ++ "'"));;
    f ← get_flags;
    let '(extraVolumeMounts, err) :=
      parseVolumeMounts (flagExtraVolumeMounts f) in
    match err with
    | Some err => return_err err
    | None =>
        emit (EvClusterCreate (flagPort f) extraVolumeMounts);;
        match k8s.Create cluster (flagPort f) extraVolumeMounts with
        | Some err =>
            emit (EvError
              ("Cluster '" ++ ClusterName ++ "' could not be created"));;
            return_err err
        | None =>
            emit (EvSuccess ("Cluster '" ++ ClusterName ++ "' created"))
        end
    end.

(** [RunE]; [telClient.Wrap] runs the function it is given and returns
    its error. *)
Definition RunE : M unit :=
  emit (EvSpinnerUpdateText
          ("Checking for existing Kubernetes cluster '" ++ ClusterName ++ "'"));;
  emit EvProviderCluster;;
  match provider_Cluster W with
  | inl err =>
      emit (EvError
        ("Unable to determine status of any existing '" ++ ClusterName ++ "' cluster"));;
      return_err err
  | inr cluster =>
      provision cluster;;
      install
  end.

(** cobra runs the pre-run hook, then validates the flag groups, then
    runs the run function; the first error ends the execution. *)
Definition execute (cl : CommandLine) : M unit :=
  PreRunE;;
  match cobra.ValidateFlagGroups cl with
  | Some err => return_err err
  | None => mret tt
  end;;
  RunE.

(** A run of the command from a command line; [dockerClient0] is the
    package variable [dockerClient] when the command starts. *)
Definition initial (cl : CommandLine)
    (dockerClient0 : option docker.Docker) : State :=
  {| flags := parseFlags IngressPort cl;
     dockerClient := dockerClient0 |}.

Definition Execute (cl : CommandLine)
    (dockerClient0 : option docker.Docker) : step unit * State * list Event :=
  execute cl (initial cl dockerClient0).

End NewCmdInstall.

(** The three components of a run. *)
Definition result_of {A} (run : step A * State * list Event) : step A := run.1.1.
Definition state_of {A} (run : step A * State * list Event) : State := run.1.2.
Definition events_of {A} (run : step A * State * list Event) : list Event := run.2.

(** ** Reading a trace *)

(** The warnings printed, the ports handed to [local.New], the ports
    whose availability was checked, the cluster creations and the install
    invocations of a trace, each in order. *)
Definition warningsOf (evs : list Event) : list string :=
  omap (fun e => match e with EvWarning text => Some text | _ => None end) evs.

Definition portsUsed (evs : list Event) : list Z :=
  omap (fun e => match e with EvLocalNew port => Some port | _ => None end) evs.

Definition portChecks (evs : list Event) : list Z :=
  omap (fun e => match e with EvPortAvailable port => Some port | _ => None end) evs.

Definition existenceQueries (evs : list Event) : list unit :=
  omap (fun e => match e with EvProviderCluster => Some tt | _ => None end) evs.

Definition creations (evs : list Event) : list (Z * list ExtraVolumeMount) :=
  omap (fun e => match e with
                 | EvClusterCreate port mounts => Some (port, mounts)
                 | _ => None
                 end) evs.

Definition installs (evs : list Event) : list local.InstallOpts :=
  omap (fun e => match e with EvInstall opts => Some opts | _ => None end) evs.

(** The two warnings of the port check. *)
Definition fallbackWarning : string :=
  "Unable to determine which port the existing cluster was configured to use."
  ++ nl ++
  "Installation will continue but may ultimately fail, in which case it will be necessarily to uninstall first.".

Definition conflictWarning (existing provided : Z) : string :=
  "The existing cluster was found to be using port " ++ fmt_d existing
  ++ ", which differs from the provided port " ++ fmt_d provided ++ "."
  ++ nl ++
  "The existing port will be used, as changing ports currently requires the existing installation to be uninstalled first.".

(** ** Sample collaborators *)

Module Sample.

Definition kindProvider : k8s.Provider :=
  {| k8s.Name := k8s.Kind; k8s.ClusterName := "airbyte-abctl" |}.

Definition dockerVersion : docker.Version :=
  {| docker.version := "27.0.3"; docker.Arch := "amd64";
     docker.Platform := "linux" |}.

(** A docker client whose control-plane container publishes [port]. *)
Definition dockerOn (port : Z) : docker.Docker :=
  {| docker.Port := fun _ => (port, None) |}.

(** A docker client that cannot read the port. *)
Definition dockerBroken : docker.Docker :=
  {| docker.Port := fun _ => (0, Some (errorString "no such container")) |}.

Definition existingCluster : k8s.Cluster :=
  {| k8s.Exists := true; k8s.Create := fun _ _ => None |}.

Definition noCluster : k8s.Cluster :=
  {| k8s.Exists := false; k8s.Create := fun _ _ => None |}.

Definition installer : local.Command :=
  {| local.Install := fun _ => None |}.

(** A world in which every collaborator succeeds; the pre-run helpers
    leave [dockerClient] as it is. *)
Definition world (env : gmap string string) (cluster : k8s.Cluster)
    (client : docker.Docker) : World :=
  {| environ := env;
     dockerInstalled := fun dc => (inr dockerVersion, dc);
     portAvailable := fun _ dc => (None, dc);
     provider_Cluster := inr cluster;
     docker_New := inr client;
     local_New := fun _ => inr installer |}.

(** The cluster provider cannot tell whether the cluster exists. *)
Definition worldQueryFails : World :=
  {| environ := ∅;
     dockerInstalled := fun dc => (inr dockerVersion, dc);
     portAvailable := fun _ dc => (None, dc);
     provider_Cluster := inl (errorString "kind: cannot list clusters");
     docker_New := inr (dockerOn 8000);
     local_New := fun _ => inr installer |}.

(** A cluster exists and the requested port is bound. *)
Definition worldPortTaken : World :=
  {| environ := ∅;
     dockerInstalled := fun dc => (inr dockerVersion, dc);
     portAvailable :=
       fun _ dc => (Some (errorString "address already in use"), dc);
     provider_Cluster := inr existingCluster;
     docker_New := inr (dockerOn 8000);
     local_New := fun _ => inr installer |}.

Definition noFlags : CommandLine :=
  {| arg_port := None; arg_host := None; arg_chart_version := None;
     arg_values := None; arg_secret := None; arg_volume := None;
     arg_migrate := None; arg_docker_server := None;
     arg_docker_username := None; arg_docker_password := None;
     arg_docker_email := None; arg_no_browser := None;
     arg_low_resource_mode := None; arg_insecure_cookies := None |}.

(** [--chart-version 1.4.0] *)
Definition pinned : CommandLine :=
  {| arg_port := None; arg_host := None; arg_chart_version := Some "1.4.0";
     arg_values := None; arg_secret := None; arg_volume := None;
     arg_migrate := None; arg_docker_server := None;
     arg_docker_username := None; arg_docker_password := None;
     arg_docker_email := None; arg_no_browser := None;
     arg_low_resource_mode := None; arg_insecure_cookies := None |}.

(** [--docker-username alice --docker-password secret
    --docker-email alice@example.com] *)
Definition withCredentials : CommandLine :=
  {| arg_port := None; arg_host := None; arg_chart_version := None;
     arg_values := None; arg_secret := None; arg_volume := None;
     arg_migrate := None; arg_docker_server := None;
     arg_docker_username := Some "alice";
     arg_docker_password := Some "secret";
     arg_docker_email := Some "alice@example.com";
     arg_no_browser := None;
     arg_low_resource_mode := None; arg_insecure_cookies := None |}.

(** [--port 9000 --volume /data:/var/data] *)
Definition port9000 : CommandLine :=
  {| arg_port := Some 9000; arg_host := None; arg_chart_version := None;
     arg_values := None; arg_secret := None;
     arg_volume := Some ["/data:/var/data"];
     arg_migrate := None; arg_docker_server := None;
     arg_docker_username := None; arg_docker_password := None;
     arg_docker_email := None; arg_no_browser := None;
     arg_low_resource_mode := None; arg_insecure_cookies := None |}.

(** [--volume /host/a:/guest/a,badformat] *)
Definition badVolume : CommandLine :=
  {| arg_port := None; arg_host := None; arg_chart_version := None;
     arg_values := None; arg_secret := None;
     arg_volume := Some ["/host/a:/guest/a"; "badformat"];
     arg_migrate := None; arg_docker_server := None;
     arg_docker_username := None; arg_docker_password := None;
     arg_docker_email := None; arg_no_browser := None;
     arg_low_resource_mode := None; arg_insecure_cookies := None |}.

End Sample.

(** ** Auxiliary definitions for the statements *)

(** A raw spec is well formed when splitting it on [":"] gives exactly
    two parts. *)
Definition twoParts (spec : string) : Prop :=
  length (strings.Split spec colon) = 2%nat.

#[global] Instance twoParts_dec spec : Decision (twoParts spec).
Proof. unfold twoParts. apply _. Defined.

(** The record the loop body stores for a spec. *)
Definition mountOf (spec : string) : ExtraVolumeMount :=
  {| HostPath := nth 0 (strings.Split spec colon) EmptyString;
     ContainerPath := nth 1 (strings.Split spec colon) EmptyString |}.

(** The options the installer receives, from the state at that point. *)
Definition finalOpts (environ : gmap string string) (f : Flags)
    (dockerClient : option docker.Docker) : local.InstallOpts :=
  applyEnvOverrides environ (normalizeChartVersion (buildOpts f dockerClient)).

(** The docker client the port check talks to: the package variable
    when it is set, a new connection otherwise. *)
Definition clientForCheck (W : World) (s : State) : option docker.Docker :=
  match dockerClient s with
  | Some c => Some c
  | None =>
      match docker_New W with
      | inr c => Some c
      | inl _ => None
      end
  end.

(** Events that are neither a pre-check, an existence query, a creation,
    an install nor a [local.New]. *)
Definition quiet (evs : list Event) : Prop :=
  portChecks evs = [] /\ existenceQueries evs = [] /\ creations evs = []
  /\ installs evs = [] /\ portsUsed evs = [].

(** [RunE] assigns [flagPort] and no other flag variable. *)
Definition keepsFlags (s s' : State) : Prop :=
  exists p : Z, flags s' = set_flagPort p (flags s).

(** The credential group: the four fields are all empty or all
    non-empty. *)
Definition credentialGroupWhole (opts : local.InstallOpts) : Prop :=
  (local.DockerServer opts = EmptyString /\ local.DockerUser opts = EmptyString
   /\ local.DockerPass opts = EmptyString /\ local.DockerEmail opts = EmptyString)
  \/ (local.DockerServer opts <> EmptyString /\ local.DockerUser opts <> EmptyString
      /\ local.DockerPass opts <> EmptyString /\ local.DockerEmail opts <> EmptyString).

(** ** Further auxiliary definitions *)

(** The connections to the docker daemon and the port queries of a trace,
    each in order. *)
Definition connections (evs : list Event) : list unit :=
  omap (fun e => match e with EvDockerNew => Some tt | _ => None end) evs.

Definition portQueries (evs : list Event) : list string :=
  omap (fun e => match e with EvDockerPort container => Some container | _ => None end) evs.

(** Reading a decimal numeral back, the inverse of [%d]. *)
Definition parse_d (text : string) : option Z :=
  Z.of_int <$> NilZero.int_of_string text.

(** The raw spec of a mount, [<HOST_PATH>:<GUEST_PATH>]. *)
Definition formatMount (m : ExtraVolumeMount) : string :=
  HostPath m ++ String colon (ContainerPath m).

(** The same collaborators in another process environment. *)
Definition withEnviron (env : gmap string string) (W : World) : World :=
  {| environ := env;
     dockerInstalled := dockerInstalled W;
     portAvailable := portAvailable W;
     provider_Cluster := provider_Cluster W;
     docker_New := docker_New W;
     local_New := local_New W |}.

(** The variables [RunE] reads. *)
Definition dockerVariables : list string :=
  [envDockerServer; envDockerUser; envDockerPass; envDockerEmail].

Module Sample2.

Definition otherProvider : k8s.Provider :=
  {| k8s.Name := k8s.OtherProvider; k8s.ClusterName := "airbyte-test" |}.

(** The docker installation cannot be determined. *)
Definition worldNoDocker : World :=
  {| environ := ∅;
     dockerInstalled := fun dc => (inl (errorString "docker: not found"), dc);
     portAvailable := fun _ dc => (None, dc);
     provider_Cluster := inr Sample.existingCluster;
     docker_New := inr (Sample.dockerOn 8000);
     local_New := fun _ => inr Sample.installer |}.

(** A cluster exists and the docker daemon cannot be reached. *)
Definition worldNoDaemon : World :=
  {| environ := ∅;
     dockerInstalled := fun dc => (inr Sample.dockerVersion, dc);
     portAvailable := fun _ dc => (None, dc);
     provider_Cluster := inr Sample.existingCluster;
     docker_New := inl (errorString "daemon not running");
     local_New := fun _ => inr Sample.installer |}.

(** No cluster exists and none can be created. *)
Definition brokenCluster : k8s.Cluster :=
  {| k8s.Exists := false;
     k8s.Create := fun _ _ => Some (errorString "kind: out of disk") |}.

(** [local.New] fails. *)
Definition worldNoLocal : World :=
  {| environ := ∅;
     dockerInstalled := fun dc => (inr Sample.dockerVersion, dc);
     portAvailable := fun _ dc => (None, dc);
     provider_Cluster := inr Sample.noCluster;
     docker_New := inr (Sample.dockerOn 8000);
     local_New := fun _ => inl (errorString "no kubeconfig") |}.

(** The installer fails. *)
Definition worldInstallFails : World :=
  {| environ := ∅;
     dockerInstalled := fun dc => (inr Sample.dockerVersion, dc);
     portAvailable := fun _ dc => (None, dc);
     provider_Cluster := inr Sample.noCluster;
     docker_New := inr (Sample.dockerOn 8000);
     local_New := fun _ =>
       inr {| local.Install := fun _ => Some (errorString "helm: timeout") |} |}.

(** [--docker-username alice] alone. *)
Definition onlyUsername : CommandLine :=
  {| arg_port := None; arg_host := None; arg_chart_version := None;
     arg_values := None; arg_secret := None; arg_volume := None;
     arg_migrate := None; arg_docker_server := None;
     arg_docker_username := Some "alice";
     arg_docker_password := None;
     arg_docker_email := None;
     arg_no_browser := None;
     arg_low_resource_mode := None; arg_insecure_cookies := None |}.

(** [--host airbyte.local --values values.yaml --secret s1.yaml
    --migrate --low-resource-mode] *)
Definition customised : CommandLine :=
  {| arg_port := None; arg_host := Some "airbyte.local";
     arg_chart_version := None;
     arg_values := Some "values.yaml"; arg_secret := Some ["s1.yaml"];
     arg_volume := None;
     arg_migrate := Some true; arg_docker_server := None;
     arg_docker_username := None; arg_docker_password := None;
     arg_docker_email := None; arg_no_browser := None;
     arg_low_resource_mode := Some true; arg_insecure_cookies := None |}.

End Sample2.

(** * Properties *)

(** ** Examples *)

Example parse_two :
  parseVolumeMounts ["/host/a:/guest/a"; "/data:/var/data"] =
  ([ {| HostPath := "/host/a"; ContainerPath := "/guest/a" |};
     {| HostPath := "/data"; ContainerPath := "/var/data" |} ], None).
Proof. reflexivity. Qed.

Example parse_bad :
  parseVolumeMounts ["/host/a:/guest/a"; "badformat"] =
  ([], Some (errorString
     "volume badformat is not a valid volume spec, must be <HOST_PATH>:<GUEST_PATH>")).
Proof. reflexivity. Qed.

Example fmt_d_examples :
  fmt_d 8000 = "8000" /\ fmt_d 0 = "0" /\ fmt_d (-12) = "-12".
Proof. repeat split. Qed.

(** Requested port 8000, the existing cluster's control plane reports
    8000: port 8000 is used, no warning, the installer is invoked. *)
Example scenario_same_port :
  let run :=
    Execute 8000 Sample.kindProvider
      (Sample.world ∅ Sample.existingCluster (Sample.dockerOn 8000))
      Sample.noFlags None in
  portsUsed (events_of run) = [8000]
  /\ warningsOf (events_of run) = []
  /\ length (installs (events_of run)) = 1%nat
  /\ result_of run = Next tt.
Proof. repeat split. Qed.

(** Requested port 8000, the existing cluster reports 8001: port 8001 is
    used, one warning with both values, the installer is invoked. *)
Example scenario_port_conflict :
  let run :=
    Execute 8000 Sample.kindProvider
      (Sample.world ∅ Sample.existingCluster (Sample.dockerOn 8001))
      Sample.noFlags None in
  portsUsed (events_of run) = [8001]
  /\ warningsOf (events_of run) = [conflictWarning 8001 8000]
  /\ length (installs (events_of run)) = 1%nat
  /\ result_of run = Next tt.
Proof. repeat split. Qed.

(** No cluster and the mounts [/host/a:/guest/a] and [badformat]: the
    parser's error names [badformat]; no creation is attempted. *)
Example scenario_bad_mount :
  let run :=
    Execute 8000 Sample.kindProvider
      (Sample.world ∅ Sample.noCluster (Sample.dockerOn 8000))
      Sample.badVolume None in
  result_of run = Returned (volumeError "badformat")
  /\ creations (events_of run) = [].
Proof. repeat split. Qed.

(** No cluster, the mount [/data:/var/data], requested port 9000: the
    cluster is created with port 9000 and the one mount, and the installer
    is invoked. *)
Example scenario_create :
  let run :=
    Execute 8000 Sample.kindProvider
      (Sample.world ∅ Sample.noCluster (Sample.dockerOn 8000))
      Sample.port9000 None in
  creations (events_of run) =
    [(9000, [ {| HostPath := "/data"; ContainerPath := "/var/data" |} ])]
  /\ portsUsed (events_of run) = [9000]
  /\ length (installs (events_of run)) = 1%nat
  /\ result_of run = Next tt.
Proof. repeat split. Qed.

(** ** Reading a trace: rewriting *)

Section TraceProjections.

Context {A : Type} (f : Event -> option A).

Lemma omap_events_cons (e : Event) (evs : list Event) :
  omap f (e :: evs) = (match f e with Some a => [a] | None => [] end ++ omap f evs)%list.
Proof. simpl. by destruct (f e). Qed.

End TraceProjections.

Lemma portChecks_app (evs evs' : list Event) :
  portChecks (evs ++ evs') = (portChecks evs ++ portChecks evs')%list.
Proof. apply omap_app. Qed.

Lemma existenceQueries_app (evs evs' : list Event) :
  existenceQueries (evs ++ evs') = (existenceQueries evs ++ existenceQueries evs')%list.
Proof. apply omap_app. Qed.

Lemma creations_app (evs evs' : list Event) :
  creations (evs ++ evs') = (creations evs ++ creations evs')%list.
Proof. apply omap_app. Qed.

Lemma installs_app (evs evs' : list Event) :
  installs (evs ++ evs') = (installs evs ++ installs evs')%list.
Proof. apply omap_app. Qed.

Lemma portsUsed_app (evs evs' : list Event) :
  portsUsed (evs ++ evs') = (portsUsed evs ++ portsUsed evs')%list.
Proof. apply omap_app. Qed.

Lemma warningsOf_app (evs evs' : list Event) :
  warningsOf (evs ++ evs') = (warningsOf evs ++ warningsOf evs')%list.
Proof. apply omap_app. Qed.

Lemma portChecks_cons (e : Event) (evs : list Event) :
  portChecks (e :: evs) =
  (match e with EvPortAvailable port => [port] | _ => [] end ++ portChecks evs)%list.
Proof. unfold portChecks. rewrite omap_events_cons. by destruct e. Qed.

Lemma existenceQueries_cons (e : Event) (evs : list Event) :
  existenceQueries (e :: evs) =
  (match e with EvProviderCluster => [tt] | _ => [] end ++ existenceQueries evs)%list.
Proof. unfold existenceQueries. rewrite omap_events_cons. by destruct e. Qed.

Lemma creations_cons (e : Event) (evs : list Event) :
  creations (e :: evs) =
  (match e with EvClusterCreate port mounts => [(port, mounts)] | _ => [] end
   ++ creations evs)%list.
Proof. unfold creations. rewrite omap_events_cons. by destruct e. Qed.

Lemma installs_cons (e : Event) (evs : list Event) :
  installs (e :: evs) =
  (match e with EvInstall opts => [opts] | _ => [] end ++ installs evs)%list.
Proof. unfold installs. rewrite omap_events_cons. by destruct e. Qed.

Lemma portsUsed_cons (e : Event) (evs : list Event) :
  portsUsed (e :: evs) =
  (match e with EvLocalNew port => [port] | _ => [] end ++ portsUsed evs)%list.
Proof. unfold portsUsed. rewrite omap_events_cons. by destruct e. Qed.

Lemma warningsOf_cons (e : Event) (evs : list Event) :
  warningsOf (e :: evs) =
  (match e with EvWarning text => [text] | _ => [] end ++ warningsOf evs)%list.
Proof. unfold warningsOf. rewrite omap_events_cons. by destruct e. Qed.

Lemma portChecks_nil : portChecks [] = [].
Proof. reflexivity. Qed.

Lemma existenceQueries_nil : existenceQueries [] = [].
Proof. reflexivity. Qed.

Lemma creations_nil : creations [] = [].
Proof. reflexivity. Qed.

Lemma installs_nil : installs [] = [].
Proof. reflexivity. Qed.

Lemma portsUsed_nil : portsUsed [] = [].
Proof. reflexivity. Qed.

Lemma warningsOf_nil : warningsOf [] = [].
Proof. reflexivity. Qed.

Create Rewrite HintDb trace.
#[global] Hint Rewrite
  portChecks_nil existenceQueries_nil creations_nil installs_nil
  portsUsed_nil warningsOf_nil
  portChecks_app existenceQueries_app creations_app installs_app
  portsUsed_app warningsOf_app
  portChecks_cons existenceQueries_cons creations_cons installs_cons
  portsUsed_cons warningsOf_cons : trace.

#[global] Arguments portChecks : simpl never.
#[global] Arguments existenceQueries : simpl never.
#[global] Arguments creations : simpl never.
#[global] Arguments installs : simpl never.
#[global] Arguments portsUsed : simpl never.
#[global] Arguments warningsOf : simpl never.



(** ** [strings.Split] *)

Section SplitFacts.

Variable sep : ascii.

Lemma Split_nonempty (s : string) : strings.Split s sep <> [].
Proof.
  destruct s as [|c rest]; simpl; [discriminate|].
  destruct (Ascii.eqb c sep); [discriminate|].
  destruct (strings.Split rest sep); discriminate.
Qed.

(** One part more than there are separators. *)
Lemma Split_length (s : string) :
  length (strings.Split s sep) = S (strings.Count s sep).
Proof.
  induction s as [|c rest IH]; simpl; [reflexivity|].
  destruct (Ascii.eqb c sep); simpl; [by rewrite IH|].
  destruct (strings.Split rest sep) as [|part parts] eqn:E; simpl in *; lia.
Qed.

(** Joining the parts with the separator gives the string back. *)
Lemma Join_Split (s : string) : strings.Join (strings.Split s sep) sep = s.
Proof.
  induction s as [|c rest IH]; simpl; [reflexivity|].
  destruct (Ascii.eqb c sep) eqn:Ec.
  - apply Ascii.eqb_eq in Ec as ->.
    pose proof (Split_nonempty rest) as Hne.
    destruct (strings.Split rest sep) as [|part parts]; [done|].
    simpl in *. by rewrite <- IH.
  - pose proof (Split_nonempty rest) as Hne.
    destruct (strings.Split rest sep) as [|part parts]; [done|].
    destruct parts as [|part' parts]; simpl in *; by rewrite <- IH.
Qed.

(** No part contains the separator. *)
Lemma Split_no_sep (s : string) :
  Forall (fun part => strings.Count part sep = 0%nat) (strings.Split s sep).
Proof.
  induction s as [|c rest IH]; simpl.
  - by constructor.
  - destruct (Ascii.eqb c sep) eqn:Ec.
    + by constructor.
    + destruct (strings.Split rest sep) as [|part parts].
      * constructor; [|done]. simpl. by rewrite Ec.
      * inversion IH; subst. constructor; [|done]. simpl. by rewrite Ec.
Qed.

(** Splitting [h ++ sep ++ c] where [h] has no separator. *)
Lemma Split_app_sep (h c : string) :
  strings.Count h sep = 0%nat ->
  strings.Split (h ++ String sep c) sep = h :: strings.Split c sep.
Proof.
  induction h as [|a h IH]; simpl; intros Hh.
  - by rewrite Ascii.eqb_refl.
  - destruct (Ascii.eqb a sep); [discriminate|].
    by rewrite IH.
Qed.

Lemma Split_no_sep_id (s : string) :
  strings.Count s sep = 0%nat -> strings.Split s sep = [s].
Proof.
  induction s as [|a s IH]; simpl; intros Hs; [reflexivity|].
  destruct (Ascii.eqb a sep); [discriminate|].
  by rewrite IH.
Qed.

(** [Split] is determined by these facts: a non-empty list of parts
    without separator that joins to [s] is the split of [s]. *)
Lemma Split_unique (parts : list string) (s : string) :
  parts <> [] ->
  Forall (fun part => strings.Count part sep = 0%nat) parts ->
  strings.Join parts sep = s ->
  strings.Split s sep = parts.
Proof.
  intros Hne Hparts. revert s.
  induction Hparts as [|part [|part' rest] Hpart Hrest IH]; intros s HJ; [done|..].
  - simpl in HJ. subst s. by apply Split_no_sep_id.
  - change (part ++ String sep (strings.Join (part' :: rest) sep) = s) in HJ.
    subst s. rewrite Split_app_sep by done. f_equal. by apply IH.
Qed.

End SplitFacts.

Example Split_examples :
  strings.Split "/data:/var/data" colon = ["/data"; "/var/data"]
  /\ strings.Split "badformat" colon = ["badformat"]
  /\ strings.Split "a:b:c" colon = ["a"; "b"; "c"]
  /\ strings.Split EmptyString colon = [EmptyString]
  /\ strings.Split ":" colon = [EmptyString; EmptyString].
Proof. repeat split. Qed.

(** ** [parseVolumeMounts] *)

Lemma twoParts_iff_one_colon (spec : string) :
  twoParts spec <-> strings.Count spec colon = 1%nat.
Proof. unfold twoParts. rewrite Split_length. lia. Qed.

Lemma twoParts_sides (spec : string) :
  twoParts spec ->
  strings.Split spec colon = [HostPath (mountOf spec); ContainerPath (mountOf spec)]
  /\ spec = HostPath (mountOf spec) ++ String colon (ContainerPath (mountOf spec))
  /\ strings.Count (HostPath (mountOf spec)) colon = 0%nat
  /\ strings.Count (ContainerPath (mountOf spec)) colon = 0%nat.
Proof.
  unfold twoParts, mountOf. intros Hlen.
  pose proof (Join_Split colon spec) as HJ.
  pose proof (Split_no_sep colon spec) as HF.
  destruct (strings.Split spec colon) as [|h [|c [|x parts]]]; try discriminate.
  simpl in *. inversion HF as [|? ? Hh HF']; subst. inversion HF'; subst.
  by repeat split.
Qed.

(** The loop on well-formed specs: the slots [i], [i+1], ... of [mounts]
    are overwritten, in order, with the records of the specs. *)
Lemma parseVolumeMounts_loop_ok (specs : list string) :
  Forall twoParts specs ->
  forall (i : nat) (mounts : list ExtraVolumeMount),
    (i + length specs <= length mounts)%nat ->
    parseVolumeMounts_loop i specs mounts =
    ((take i mounts ++ map mountOf specs ++ drop (i + length specs) mounts)%list,
     None).
Proof.
  induction 1 as [|spec rest Hspec Hrest IH]; intros i mounts Hlen; simpl in *.
  - by rewrite Nat.add_0_r, take_drop.
  - unfold twoParts in Hspec. rewrite Hspec. simpl.
    rewrite IH by (rewrite length_insert; lia).
    f_equal.
    rewrite (take_S_r _ i (mountOf spec))
      by (apply list_lookup_insert_eq; lia).
    rewrite take_insert_ge by lia.
    rewrite drop_insert_lt by lia.
    rewrite <- app_assoc. simpl. do 4 f_equal. lia.
Qed.

(** The loop stops at the first malformed spec. *)
Lemma parseVolumeMounts_loop_err (pre : list string) (bad : string)
    (post : list string) :
  Forall twoParts pre -> ~ twoParts bad ->
  forall (i : nat) (mounts : list ExtraVolumeMount),
    parseVolumeMounts_loop i ((pre ++ bad :: post)%list) mounts =
    ([], Some (volumeError bad)).
Proof.
  induction 1 as [|spec rest Hspec Hrest IH]; intros Hbad i mounts; simpl.
  - unfold twoParts in Hbad.
    destruct (Nat.eqb_spec (length (strings.Split bad colon)) 2); [done|].
    reflexivity.
  - unfold twoParts in Hspec. rewrite Hspec. simpl. by apply IH.
Qed.

Lemma parseVolumeMounts_ok (specs : list string) :
  Forall twoParts specs ->
  parseVolumeMounts specs = (map mountOf specs, None).
Proof.
  intros Hall. unfold parseVolumeMounts.
  rewrite parseVolumeMounts_loop_ok by (by rewrite ?length_replicate).
  simpl. by rewrite drop_ge, app_nil_r by (by rewrite length_replicate).
Qed.

(** A list with a malformed spec has a first one. *)
Lemma first_malformed (specs : list string) :
  Exists (fun spec => ~ twoParts spec) specs ->
  exists pre bad post,
    specs = (pre ++ bad :: post)%list /\ Forall twoParts pre /\ ~ twoParts bad.
Proof.
  induction specs as [|spec rest IH]; intros Hex; [by inversion Hex|].
  destruct (decide (twoParts spec)) as [Hok|Hbad].
  - inversion Hex as [? ? Hhd|? ? Htl]; subst; [done|].
    destruct (IH Htl) as (pre & bad & post & -> & Hpre & Hb).
    exists (spec :: pre), bad, post.
    split; [done|]. split; [by constructor|done].
  - exists [], spec, rest. by repeat split.
Qed.

Lemma parseVolumeMounts_cases (specs : list string) :
  (Forall twoParts specs /\ parseVolumeMounts specs = (map mountOf specs, None))
  \/ (exists pre bad post,
        specs = (pre ++ bad :: post)%list /\ Forall twoParts pre /\ ~ twoParts bad
        /\ parseVolumeMounts specs = ([], Some (volumeError bad))).
Proof.
  destruct (decide (Forall twoParts specs)) as [Hall|Hnot].
  - left. split; [done|]. by apply parseVolumeMounts_ok.
  - right. apply not_Forall_Exists in Hnot; [|apply _].
    destruct (first_malformed specs Hnot) as (pre & bad & post & -> & Hpre & Hb).
    exists pre, bad, post. repeat split; try done.
    by apply parseVolumeMounts_loop_err.
Qed.

(** C2.  When every raw spec splits on [":"] into exactly two parts,
    [parseVolumeMounts] returns, without an error, a list of records of
    the same length and in the same order as the input, and the record at
    each position holds the two sides of the spec at that position: the
    host path is the text before the separator, the container path the
    text after it. *)
Theorem parseVolumeMounts_well_formed (specs : list string) :
  Forall twoParts specs ->
  exists mounts : list ExtraVolumeMount,
    parseVolumeMounts specs = (mounts, None)
    /\ length mounts = length specs
    /\ forall (i : nat) (spec : string),
         specs !! i = Some spec ->
         exists m : ExtraVolumeMount,
           mounts !! i = Some m
           /\ strings.Split spec colon = [HostPath m; ContainerPath m]
           /\ spec = HostPath m ++ String colon (ContainerPath m).
Proof.
  intros Hall. exists (map mountOf specs).
  split; [by apply parseVolumeMounts_ok|].
  split; [by rewrite length_map|].
  intros i spec Hi. exists (mountOf spec).
  split; [by rewrite list_lookup_fmap, Hi|].
  rewrite Forall_lookup in Hall.
  destruct (twoParts_sides spec (Hall i spec Hi)) as (HS & HJ & _).
  by split.
Qed.

Lemma parseVolumeMounts_well_formed_witness :
  exists mounts : list ExtraVolumeMount,
    parseVolumeMounts ["/host/a:/guest/a"; "/data:/var/data"] = (mounts, None)
    /\ length mounts = 2%nat
    /\ forall (i : nat) (spec : string),
         ["/host/a:/guest/a"; "/data:/var/data"] !! i = Some spec ->
         exists m : ExtraVolumeMount,
           mounts !! i = Some m
           /\ strings.Split spec colon = [HostPath m; ContainerPath m]
           /\ spec = HostPath m ++ String colon (ContainerPath m).
Proof.
  apply (parseVolumeMounts_well_formed ["/host/a:/guest/a"; "/data:/var/data"]).
  repeat constructor.
Defined.

(** C3.  When some raw spec splits on [":"] into a number of parts other
    than two, [parseVolumeMounts] returns the [nil] slice together with an
    error, and the error's message contains, verbatim, the first such spec
    of the list (the one with only well-formed specs before it); that spec
    has no separator or at least two. *)
Theorem parseVolumeMounts_malformed (specs : list string) :
  Exists (fun spec => length (strings.Split spec colon) <> 2%nat) specs ->
  exists (pre : list string) (bad : string) (post : list string),
    specs = (pre ++ bad :: post)%list
    /\ Forall (fun spec => length (strings.Split spec colon) = 2%nat) pre
    /\ length (strings.Split bad colon) <> 2%nat
    /\ (strings.Count bad colon = 0%nat \/ (2 <= strings.Count bad colon)%nat)
    /\ parseVolumeMounts specs =
       ([], Some (errorString
                    ("volume " ++ bad ++
                     " is not a valid volume spec, must be <HOST_PATH>:<GUEST_PATH>"))).
Proof.
  intros Hex.
  destruct (first_malformed specs Hex) as (pre & bad & post & -> & Hpre & Hbad).
  exists pre, bad, post. repeat split; try done.
  - unfold twoParts in Hbad. rewrite Split_length in Hbad. lia.
  - by apply parseVolumeMounts_loop_err.
Qed.

Lemma parseVolumeMounts_malformed_witness :
  exists (pre : list string) (bad : string) (post : list string),
    ["/host/a:/guest/a"; "badformat"; "a:b:c"] = (pre ++ bad :: post)%list
    /\ Forall (fun spec => length (strings.Split spec colon) = 2%nat) pre
    /\ length (strings.Split bad colon) <> 2%nat
    /\ (strings.Count bad colon = 0%nat \/ (2 <= strings.Count bad colon)%nat)
    /\ parseVolumeMounts ["/host/a:/guest/a"; "badformat"; "a:b:c"] =
       ([], Some (errorString
                    ("volume " ++ bad ++
                     " is not a valid volume spec, must be <HOST_PATH>:<GUEST_PATH>"))).
Proof.
  apply (parseVolumeMounts_malformed ["/host/a:/guest/a"; "badformat"; "a:b:c"]).
  apply Exists_cons_tl, Exists_cons_hd. simpl. lia.
Defined.

(** The spec [":"] has two parts, both empty, and is accepted. *)
Example parse_empty_sides :
  parseVolumeMounts [":"] =
  ([ {| HostPath := EmptyString; ContainerPath := EmptyString |} ], None).
Proof. reflexivity. Qed.

(** C9, as stated, fails: the parser produces a record with an empty host
    path and an empty container path from the spec [":"]. *)
Lemma parseVolumeMounts_empty_paths :
  ~ (forall (specs : list string) (mounts : list ExtraVolumeMount),
       parseVolumeMounts specs = (mounts, None) ->
       Forall (fun m => HostPath m <> EmptyString
                        /\ ContainerPath m <> EmptyString) mounts).
Proof.
  intros Hclaim.
  specialize (Hclaim [":"] _ parse_empty_sides).
  inversion Hclaim as [|? ? [Hhost _] _]. by apply Hhost.
Qed.

(** C9, amended.  Every record the parser produces holds the two sides of
    its raw spec around the single [":"]: the spec is the host path, the
    separator and the container path, and neither path contains the
    separator.  The paths may be empty: a path is empty exactly when that
    side of the spec is. *)
Theorem parseVolumeMounts_records (specs : list string)
    (mounts : list ExtraVolumeMount) :
  parseVolumeMounts specs = (mounts, None) ->
  Forall2 (fun spec m =>
             spec = HostPath m ++ String colon (ContainerPath m)
             /\ strings.Count (HostPath m) colon = 0%nat
             /\ strings.Count (ContainerPath m) colon = 0%nat)
          specs mounts.
Proof.
  intros Hparse.
  destruct (parseVolumeMounts_cases specs)
    as [[Hall Hok]|(pre & bad & post & _ & _ & _ & Herr)]; [|congruence].
  rewrite Hok in Hparse. injection Hparse as <-. clear Hok.
  induction Hall as [|spec rest Hspec Hrest IH]; simpl; constructor; [|done].
  destruct (twoParts_sides spec Hspec) as (_ & HJ & Hh & Hc). by repeat split.
Qed.

Lemma parseVolumeMounts_records_witness :
  Forall2 (fun spec m =>
             spec = HostPath m ++ String colon (ContainerPath m)
             /\ strings.Count (HostPath m) colon = 0%nat
             /\ strings.Count (ContainerPath m) colon = 0%nat)
          ["/data:/var/data"; ":"]
          [ {| HostPath := "/data"; ContainerPath := "/var/data" |};
            {| HostPath := EmptyString; ContainerPath := EmptyString |} ].
Proof.
  apply (parseVolumeMounts_records ["/data:/var/data"; ":"]).
  reflexivity.
Defined.

(** ** The command: running the blocks *)

Lemma bind_Next {A B} (m : M A) (k : A -> M B) (s s' : State) (a : A)
    (evs : list Event) :
  m s = (Next a, s', evs) ->
  (m ≫= k) s = (result_of (k a s'), state_of (k a s'), (evs ++ events_of (k a s'))%list).
Proof.
  intros Hm. unfold mbind, M_bind. rewrite Hm.
  by destruct (k a s') as [[r s''] evs'].
Qed.

Lemma bind_Returned {A B} (m : M A) (k : A -> M B) (s s' : State)
    (err : error) (evs : list Event) :
  m s = (Returned err, s', evs) ->
  (m ≫= k) s = (Returned err, s', evs).
Proof. intros Hm. unfold mbind, M_bind. by rewrite Hm. Qed.

(** Unfolds the monad's operations in the goal. *)
Ltac run :=
  cbv [mbind M_bind mret M_ret get_flags get_dockerClient emit return_err
       assign_flagPort assign_dockerClient];
  simpl.

Section Runs.

Context (IngressPort : Z) (provider : k8s.Provider) (W : World).

Local Abbreviation ClusterName := (k8s.ClusterName provider).

(** The last block: [local.New] gets the current [flagPort]; the state
    is not changed; the installer, when it is reached, gets the final
    options. *)
Lemma install_run (s : State) :
  exists (r : step unit) (evs : list Event),
    install W s = (r, s, evs)
    /\ warningsOf evs = []
    /\ portsUsed evs = [flagPort (flags s)]
    /\ portChecks evs = []
    /\ existenceQueries evs = []
    /\ creations evs = []
    /\ (installs evs = []
        \/ installs evs = [finalOpts (environ W) (flags s) (dockerClient s)]).
Proof.
  unfold install. run.
  destruct (local_New W (flagPort (flags s))) as [err|lc]; run.
  - eexists _, _. split; [reflexivity|]. repeat split; by left.
  - destruct (local.Install lc _) as [err|]; run;
      eexists _, _; (split; [reflexivity|]); repeat split; by right.
Qed.

Lemma checkExistingPort_no_docker (s : State) (err : error) :
  dockerClient s = None -> docker_New W = inl err ->
  checkExistingPort provider W s =
  (Returned (Errorf_w "unable to connect to docker" err), s,
   [EvDockerNew; EvError "Unable to connect to Docker daemon"]).
Proof.
  intros Hdc Hnew. unfold checkExistingPort. run.
  by rewrite Hdc, Hnew.
Qed.

(** The port check with a client at hand: it never returns an error;
    [flagPort] becomes the port read, or stays as provided when the read
    failed; the warnings are as the three cases say. *)
Lemma checkExistingPort_checked (s : State) (client : docker.Docker)
    (P : Z) (err : option error) :
  clientForCheck W s = Some client ->
  docker.Port client (ClusterName ++ "-control-plane") = (P, err) ->
  exists evs : list Event,
    checkExistingPort provider W s =
    (Next tt,
     {| flags := set_flagPort
                   (match err with None => P | Some _ => flagPort (flags s) end)
                   (flags s);
        dockerClient := Some client |},
     evs)
    /\ warningsOf evs =
       match err with
       | Some _ => [fallbackWarning]
       | None => if Z.eqb (flagPort (flags s)) P then []
                 else [conflictWarning P (flagPort (flags s))]
       end
    /\ quiet evs.
Proof.
  intros Hclient HP. destruct s as [f dc].
  unfold clientForCheck in Hclient. simpl in Hclient.
  unfold checkExistingPort, quiet. run.
  destruct dc as [c|].
  - injection Hclient as ->. rewrite HP. run.
    destruct err as [e|]; run.
    + rewrite Z.eqb_refl. run. eexists. split; [reflexivity|]. done.
    + destruct (Z.eqb (flagPort f) P); run;
        (eexists; split; [reflexivity|]); done.
  - destruct (docker_New W) as [e0|c]; [done|]. injection Hclient as ->.
    run. rewrite HP. run.
    destruct err as [e|]; run.
    + rewrite Z.eqb_refl. run. eexists. split; [reflexivity|]. done.
    + destruct (Z.eqb (flagPort f) P); run;
        (eexists; split; [reflexivity|]); done.
Qed.

Lemma keepsFlags_refl (s : State) : keepsFlags s s.
Proof. exists (flagPort (flags s)). by destruct (flags s). Qed.

Lemma keepsFlags_trans (s1 s2 s3 : State) :
  keepsFlags s1 s2 -> keepsFlags s2 s3 -> keepsFlags s1 s3.
Proof. intros [p Hp] [q Hq]. exists q. by rewrite Hq, Hp. Qed.

Lemma finalOpts_keepsFlags (s s' : State) (dc : option docker.Docker) :
  keepsFlags s s' ->
  finalOpts (environ W) (flags s') dc = finalOpts (environ W) (flags s) dc.
Proof. intros [p ->]. reflexivity. Qed.

Lemma checkExistingPort_run (s : State) :
  exists (r : step unit) (s' : State) (evs : list Event),
    checkExistingPort provider W s = (r, s', evs)
    /\ keepsFlags s s' /\ quiet evs.
Proof.
  destruct (clientForCheck W s) as [client|] eqn:Hclient.
  - destruct (docker.Port client (ClusterName ++ "-control-plane"))
      as [P err] eqn:HP.
    destruct (checkExistingPort_checked s client P err Hclient HP)
      as (evs & Hrun & _ & Hquiet).
    eexists _, _, _. split; [exact Hrun|]. split; [|done].
    by eexists.
  - unfold clientForCheck in Hclient.
    destruct (dockerClient s) eqn:Hdc; [done|].
    destruct (docker_New W) as [err|] eqn:Hnew; [|done].
    eexists _, _, _. split; [by apply checkExistingPort_no_docker|].
    split; [apply keepsFlags_refl|done].
Qed.

(** The provisioning block: a cluster is created at most once, only
    when none exists, and only with the parsed mounts of a list of
    well-formed specs. *)
Lemma provision_run (cluster : k8s.Cluster) (s : State) :
  exists (r : step unit) (s' : State) (evs : list Event),
    provision provider W cluster s = (r, s', evs)
    /\ keepsFlags s s'
    /\ portChecks evs = [] /\ existenceQueries evs = []
    /\ installs evs = [] /\ portsUsed evs = []
    /\ (creations evs = []
        \/ (k8s.Exists cluster = false
            /\ exists mounts : list ExtraVolumeMount,
                 parseVolumeMounts (flagExtraVolumeMounts (flags s))
                 = (mounts, None)
                 /\ creations evs = [(flagPort (flags s), mounts)])).
Proof.
  unfold provision. destruct (k8s.Exists cluster) eqn:Hex.
  - destruct (k8s.Name provider).
    + destruct (checkExistingPort_run s)
        as (r & s' & evs & Hrun & Hkeep & Hp & Hq & Hc & Hi & Hu).
      run. rewrite Hrun. destruct r as [[]|err]; run;
        eexists _, _, _; (split; [reflexivity|]);
        autorewrite with trace; rewrite ?Hp, ?Hq, ?Hc, ?Hi, ?Hu;
        simpl; auto 10.
    + run. eexists _, _, _. split; [reflexivity|].
      split; [apply keepsFlags_refl|]. auto 10.
  - run.
    destruct (parseVolumeMounts (flagExtraVolumeMounts (flags s)))
      as [mounts [err|]] eqn:Hparse; run.
    + eexists _, _, _. split; [reflexivity|].
      split; [apply keepsFlags_refl|]. auto 10.
    + destruct (k8s.Create cluster (flagPort (flags s)) mounts); run;
        eexists _, _, _; (split; [reflexivity|]);
        (split; [apply keepsFlags_refl|]); repeat (split; [done|]);
        right; eauto.
Qed.

(** [RunE] when the existence query fails: the error is returned as
    it is, right after the query. *)
Lemma RunE_query_failed (s : State) (err : error) :
  provider_Cluster W = inl err ->
  RunE provider W s =
  (Returned err, s,
   [EvSpinnerUpdateText
      ("Checking for existing Kubernetes cluster '" ++ ClusterName ++ "'");
    EvProviderCluster;
    EvError
      ("Unable to determine status of any existing '" ++ ClusterName ++ "' cluster")]).
Proof. intros Hq. unfold RunE. run. by rewrite Hq. Qed.

(** [RunE] when the query succeeds: the provisioning block, then, if it
    did not return, the install block. *)
Lemma RunE_query_ok (s : State) (cluster : k8s.Cluster) :
  provider_Cluster W = inr cluster ->
  RunE provider W s =
  match provision provider W cluster s with
  | (Next _, s', evs) =>
      (result_of (install W s'), state_of (install W s'),
       EvSpinnerUpdateText
         ("Checking for existing Kubernetes cluster '" ++ ClusterName ++ "'")
       :: EvProviderCluster :: (evs ++ events_of (install W s'))%list)
  | (Returned err, s', evs) =>
      (Returned err, s',
       EvSpinnerUpdateText
         ("Checking for existing Kubernetes cluster '" ++ ClusterName ++ "'")
       :: EvProviderCluster :: evs)
  end.
Proof.
  intros Hq. unfold RunE. run. rewrite Hq.
  destruct (provision provider W cluster s) as [[[[]|err] s'] evs]; [|done].
  by destruct (install W s') as [[r s''] evs'].
Qed.

Lemma RunE_run (s : State) :
  exists (r : step unit) (s' : State) (evs : list Event),
    RunE provider W s = (r, s', evs)
    /\ keepsFlags s s'
    /\ portChecks evs = [] /\ existenceQueries evs = [tt]
    /\ (creations evs = []
        \/ exists (cluster : k8s.Cluster) (mounts : list ExtraVolumeMount),
             provider_Cluster W = inr cluster
             /\ k8s.Exists cluster = false
             /\ parseVolumeMounts (flagExtraVolumeMounts (flags s))
                = (mounts, None)
             /\ creations evs = [(flagPort (flags s), mounts)])
    /\ (installs evs = []
        \/ exists dc : option docker.Docker,
             installs evs = [finalOpts (environ W) (flags s) dc]).
Proof.
  destruct (provider_Cluster W) as [err|cluster] eqn:Hq.
  - rewrite (RunE_query_failed s err Hq).
    eexists _, _, _. split; [reflexivity|].
    split; [apply keepsFlags_refl|]. auto 10.
  - rewrite (RunE_query_ok s cluster Hq).
    destruct (provision_run cluster s)
      as (r & s' & evs & Hrun & Hkeep & Hp & Hq' & Hi & Hu & Hc).
    rewrite Hrun.
    destruct r as [[]|err].
    + destruct (install_run s')
        as (r' & evs' & Hrun' & _ & _ & Hp' & Hq'' & Hc'' & Hi').
      rewrite Hrun'. unfold result_of, state_of, events_of. simpl.
      eexists _, _, _. split; [reflexivity|]. split; [done|].
      autorewrite with trace.
      rewrite Hp, Hp', Hq', Hq'', Hc'', Hi, ?app_nil_r. simpl.
      repeat split; try done.
      * destruct Hc as [->|(Hex & m & Hparse & ->)];
          [by left|right; by exists cluster, m].
      * destruct Hi' as [->| ->]; [by left|right].
        exists (dockerClient s'). by rewrite (finalOpts_keepsFlags s s').
    + eexists _, _, _. split; [reflexivity|]. split; [done|].
      autorewrite with trace. rewrite Hp, Hq', Hi. simpl.
      repeat split; try done; [|by left].
      destruct Hc as [->|(Hex & m & Hparse & ->)];
        [by left|right; by exists cluster, m].
Qed.

(** The pre-run hook: it assigns no flag variable; when it returns
    [nil] both pre-checks succeeded, the second one on [flagPort]. *)
Lemma PreRunE_run (s : State) :
  exists (r : step unit) (s' : State) (evs : list Event),
    PreRunE W s = (r, s', evs)
    /\ flags s' = flags s
    /\ existenceQueries evs = [] /\ creations evs = []
    /\ installs evs = [] /\ portsUsed evs = []
    /\ (r = Next tt ->
        portChecks evs = [flagPort (flags s)]
        /\ exists (v : docker.Version) (dc1 : option docker.Docker),
             dockerInstalled W (dockerClient s) = (inr v, dc1)
             /\ portAvailable W (flagPort (flags s)) dc1
                = (None, dockerClient s')).
Proof.
  unfold PreRunE. run.
  destruct (dockerInstalled W (dockerClient s)) as [[err|v] dc1] eqn:Hdocker; run.
  - eexists _, _, _. split; [reflexivity|]. by repeat split.
  - destruct (portAvailable W (flagPort (flags s)) dc1) as [[err|] dc2] eqn:Hport;
      run; eexists _, _, _; (split; [reflexivity|]); repeat split; try done.
    exists v, dc1. by rewrite Hport.
Qed.

(** The pre-run hook when its port check fails. *)
Lemma PreRunE_port_taken (s : State) (v : docker.Version)
    (dc1 dc2 : option docker.Docker) (err : error) :
  dockerInstalled W (dockerClient s) = (inr v, dc1) ->
  portAvailable W (flagPort (flags s)) dc1 = (Some err, dc2) ->
  result_of (PreRunE W s) =
  Returned (Errorf_w ("port " ++ fmt_d (flagPort (flags s)) ++ " is not available") err).
Proof.
  intros Hdocker Hport. unfold PreRunE. run. rewrite Hdocker. run.
  by rewrite Hport.
Qed.

(** cobra's sequence: either both the pre-run hook and the flag-group
    validation pass and [RunE] runs from the state the hook left, or the
    execution ends with the first error and [RunE] does not run. *)
Lemma Execute_cases (cl : CommandLine) (dc0 : option docker.Docker) :
  exists (r1 : step unit) (s1 : State) (evs1 : list Event),
    PreRunE W (initial IngressPort cl dc0) = (r1, s1, evs1)
    /\ ((r1 = Next tt
         /\ cobra.ValidateFlagGroups cl = None
         /\ Execute IngressPort provider W cl dc0 =
            (result_of (RunE provider W s1), state_of (RunE provider W s1),
             (evs1 ++ events_of (RunE provider W s1))%list))
        \/ (exists err : error,
              (r1 = Returned err
               \/ (r1 = Next tt /\ cobra.ValidateFlagGroups cl = Some err))
              /\ Execute IngressPort provider W cl dc0 = (Returned err, s1, evs1))).
Proof.
  unfold Execute, execute.
  destruct (PreRunE W (initial IngressPort cl dc0)) as [[r1 s1] evs1] eqn:Hpre.
  exists r1, s1, evs1. split; [done|].
  destruct r1 as [[]|err].
  - rewrite (bind_Next _ _ _ _ _ _ Hpre).
    destruct (cobra.ValidateFlagGroups cl) as [err|] eqn:Hval.
    + right. exists err. split; [by right|].
      unfold result_of, state_of, events_of. run. by rewrite app_nil_r.
    + left. repeat split.
      unfold result_of, state_of, events_of. run.
      by destruct (RunE provider W s1) as [[r s'] evs].
  - right. exists err. split; [by left|].
    by rewrite (bind_Returned _ _ _ _ _ _ Hpre).
Qed.

End Runs.

(** ** Environment overrides *)

(** C5.  For every target field and variable name: when the variable is
    unset, or set to the empty string, [envOverride] leaves the field as
    it was; when the variable is set to a non-empty value, the field
    becomes exactly that value, whatever it was before. *)
Theorem envOverride_spec (environ : gmap string string)
    (original env : string) :
  ((environ !! env = None \/ environ !! env = Some EmptyString) ->
   envOverride environ original env = original)
  /\ (forall v : string,
        environ !! env = Some v -> v <> EmptyString ->
        envOverride environ original env = v).
Proof.
  unfold envOverride, os.Getenv. split.
  - by intros [-> | ->].
  - intros v -> Hv. simpl.
    destruct (String.eqb_spec v EmptyString); [done|reflexivity].
Qed.

Lemma envOverride_spec_witness :
  envOverride {[ envDockerPass := EmptyString ]} "secret" envDockerPass = "secret"
  /\ envOverride {[ envDockerUser := "bob" ]} "alice" envDockerUser = "bob".
Proof.
  split.
  - apply (proj1 (envOverride_spec {[ envDockerPass := EmptyString ]}
                    "secret" envDockerPass)).
    right. vm_compute. reflexivity.
  - apply (proj2 (envOverride_spec {[ envDockerUser := "bob" ]}
                    "alice" envDockerUser) "bob").
    + vm_compute. reflexivity.
    + discriminate.
Defined.

(** C10.  The four environment overrides change at most the four docker
    credential fields of the options: in every environment the chart
    version, values file, secret files, migrate flag, docker client, host
    and the three toggles are after the overrides what they were before,
    and each credential field is its old value overridden by its own
    variable. *)
Theorem applyEnvOverrides_frame (environ : gmap string string)
    (opts : local.InstallOpts) :
  let opts' := applyEnvOverrides environ opts in
  local.HelmChartVersion opts' = local.HelmChartVersion opts
  /\ local.ValuesFile opts' = local.ValuesFile opts
  /\ local.Secrets opts' = local.Secrets opts
  /\ local.Migrate opts' = local.Migrate opts
  /\ local.Docker opts' = local.Docker opts
  /\ local.Host opts' = local.Host opts
  /\ local.NoBrowser opts' = local.NoBrowser opts
  /\ local.LowResourceMode opts' = local.LowResourceMode opts
  /\ local.InsecureCookies opts' = local.InsecureCookies opts
  /\ local.DockerServer opts' =
     envOverride environ (local.DockerServer opts) envDockerServer
  /\ local.DockerUser opts' =
     envOverride environ (local.DockerUser opts) envDockerUser
  /\ local.DockerPass opts' =
     envOverride environ (local.DockerPass opts) envDockerPass
  /\ local.DockerEmail opts' =
     envOverride environ (local.DockerEmail opts) envDockerEmail.
Proof. by repeat split. Qed.

(** ** Port reconciliation *)

(** [%d] prints a numeral that reads back as the number printed. *)
Lemma parse_fmt_d (n : Z) : parse_d (fmt_d n) = Some n.
Proof.
  unfold parse_d, fmt_d.
  rewrite NilZero.isi.
  - simpl. by rewrite DecimalZ.of_to.
  - destruct n as [|p|p]; simpl; try discriminate.
    intros [= Hnil]. by apply (DecimalPos.Unsigned.to_uint_nonnil p).
  - destruct n as [|p|p]; simpl; try discriminate.
    intros [= Hnil]. by apply (DecimalPos.Unsigned.to_uint_nonnil p).
Qed.

(** C1, as stated, fails.  An existing cluster of the kind provider is
    found, no docker client is set and the docker daemon cannot be reached:
    the port of the control-plane container cannot be read (no client, no
    port query), and yet the run does not fall back to the provided port:
    [RunE] returns an error, prints no warning and never calls
    [local.New]. *)
Lemma port_check_aborts_without_docker :
  provider_Cluster Sample2.worldNoDaemon = inr Sample.existingCluster
  /\ k8s.Exists Sample.existingCluster = true
  /\ k8s.Name Sample.kindProvider = k8s.Kind
  /\ clientForCheck Sample2.worldNoDaemon (initial 8000 Sample.noFlags None) = None
  /\ portQueries
       (events_of (RunE Sample.kindProvider Sample2.worldNoDaemon
                     (initial 8000 Sample.noFlags None))) = []
  /\ result_of (RunE Sample.kindProvider Sample2.worldNoDaemon
                  (initial 8000 Sample.noFlags None))
     = Returned (wrapError "unable to connect to docker: daemon not running"
                   (errorString "daemon not running"))
  /\ warningsOf
       (events_of (RunE Sample.kindProvider Sample2.worldNoDaemon
                     (initial 8000 Sample.noFlags None))) = []
  /\ portsUsed
       (events_of (RunE Sample.kindProvider Sample2.worldNoDaemon
                     (initial 8000 Sample.noFlags None))) = [].
Proof. repeat split. Qed.

(** C1, amended.  [RunE] with an existing cluster of the kind provider,
    from any state; [R] is the provided port.

    With a docker client at hand (the package variable is set, or a new
    connection succeeds) that answers the port query for the control-plane
    container with [(P, err)]:
    - the query succeeds with [P <> R]: [flagPort] becomes [P], [local.New]
      is called with [P], and the one warning of the run is the conflict
      warning, whose text holds the decimal numerals of [P] and of [R]
      (numerals that read back as [P] and [R]);
    - the query succeeds with [P = R]: [local.New] is called with [R] and
      no warning is printed;
    - the query fails: [RunE] does not return there, [flagPort] stays [R],
      [local.New] is called with [R], and the one warning of the run is
      the fallback warning.
    In each of these cases what [RunE] returns is what the install block
    returns.

    Without a docker client and with the connection failing, the port is
    not queried: [RunE] returns the connection error, wrapped, prints no
    warning and does not call [local.New]. *)
Theorem port_reconciliation (provider : k8s.Provider) (W : World)
    (s : State) (cluster : k8s.Cluster) :
  provider_Cluster W = inr cluster ->
  k8s.Exists cluster = true ->
  k8s.Name provider = k8s.Kind ->
  let R := flagPort (flags s) in
  let run := RunE provider W s in
  (forall (client : docker.Docker) (P : Z) (err : option error),
     clientForCheck W s = Some client ->
     docker.Port client (k8s.ClusterName provider ++ "-control-plane") = (P, err) ->
     let reconciled (port : Z) : State :=
       {| flags := set_flagPort port (flags s); dockerClient := Some client |} in
     (err = None -> P <> R ->
        flagPort (flags (state_of run)) = P
        /\ portsUsed (events_of run) = [P]
        /\ warningsOf (events_of run) =
           ["The existing cluster was found to be using port " ++ fmt_d P
            ++ ", which differs from the provided port " ++ fmt_d R ++ "."
            ++ nl ++
            "The existing port will be used, as changing ports currently requires the existing installation to be uninstalled first."]
        /\ parse_d (fmt_d P) = Some P
        /\ parse_d (fmt_d R) = Some R
        /\ result_of run = result_of (install W (reconciled P)))
     /\ (err = None -> P = R ->
           flagPort (flags (state_of run)) = R
           /\ portsUsed (events_of run) = [R]
           /\ warningsOf (events_of run) = []
           /\ result_of run = result_of (install W (reconciled R)))
     /\ (err <> None ->
           flagPort (flags (state_of run)) = R
           /\ portsUsed (events_of run) = [R]
           /\ warningsOf (events_of run) =
              ["Unable to determine which port the existing cluster was configured to use."
               ++ nl ++
               "Installation will continue but may ultimately fail, in which case it will be necessarily to uninstall first."]
           /\ result_of run = result_of (install W (reconciled R))))
  /\ (forall cause : error,
        dockerClient s = None ->
        docker_New W = inl cause ->
        clientForCheck W s = None
        /\ result_of run =
           Returned (wrapError ("unable to connect to docker: " ++ Error cause) cause)
        /\ state_of run = s
        /\ portQueries (events_of run) = []
        /\ warningsOf (events_of run) = []
        /\ portsUsed (events_of run) = []).
Proof.
  intros Hq Hex Hkind R run. split.
  - intros client P err Hclient HP reconciled.
    destruct (checkExistingPort_checked provider W s client P err Hclient HP)
      as (evs & Hcheck & Hwarn & _ & _ & _ & _ & Hused).
    assert (provision provider W cluster s =
            (Next tt, reconciled (match err with None => P | Some _ => R end),
             [EvSuccess ("Existing cluster '" ++ k8s.ClusterName provider ++ "' found");
              EvSpinnerUpdateText
                ("Validating existing cluster '" ++ k8s.ClusterName provider ++ "'")]
             ++ evs ++
             [EvSuccess ("Cluster '" ++ k8s.ClusterName provider ++ "' validation complete")])%list)
      as Hprov.
    { unfold provision. rewrite Hex, Hkind. run. by rewrite Hcheck. }
    subst run. rewrite (RunE_query_ok provider W s cluster Hq), Hprov.
    set (s' := reconciled _).
    destruct (install_run W s') as (r & evs' & Hinst & Hw' & Hu' & _).
    rewrite Hinst. unfold result_of, state_of, events_of. simpl.
    autorewrite with trace. rewrite Hwarn, Hused, Hw', Hu'. simpl.
    subst s'. fold R in Hinst |- *.
    destruct err as [e|]; [|destruct (Z.eqb_spec R P) as [Heq|Hne]];
      repeat split; intros; subst; simpl in *; rewrite ?Hinst;
      try apply parse_fmt_d; try done.
  - intros cause Hdc Hnew.
    assert (provision provider W cluster s =
            (Returned (Errorf_w "unable to connect to docker" cause), s,
             [EvSuccess ("Existing cluster '" ++ k8s.ClusterName provider ++ "' found");
              EvSpinnerUpdateText
                ("Validating existing cluster '" ++ k8s.ClusterName provider ++ "'");
              EvDockerNew;
              EvError "Unable to connect to Docker daemon"])) as Hprov.
    { unfold provision. rewrite Hex, Hkind. run.
      by rewrite (checkExistingPort_no_docker provider W s cause Hdc Hnew). }
    subst run. rewrite (RunE_query_ok provider W s cluster Hq), Hprov.
    unfold clientForCheck. rewrite Hdc, Hnew. by repeat split.
Qed.

Lemma port_reconciliation_witness :
  let conflict :=
    RunE Sample.kindProvider
      (Sample.world ∅ Sample.existingCluster (Sample.dockerOn 8001))
      (initial 8000 Sample.noFlags None) in
  let same :=
    RunE Sample.kindProvider
      (Sample.world ∅ Sample.existingCluster (Sample.dockerOn 8000))
      (initial 8000 Sample.noFlags None) in
  let failed :=
    RunE Sample.kindProvider
      (Sample.world ∅ Sample.existingCluster Sample.dockerBroken)
      (initial 8000 Sample.noFlags None) in
  let unreachable :=
    RunE Sample.kindProvider Sample2.worldNoDaemon
      (initial 8000 Sample.noFlags None) in
  (portsUsed (events_of conflict) = [8001]
   /\ warningsOf (events_of conflict) =
      [String.append
         "The existing cluster was found to be using port 8001, which differs from the provided port 8000."
         (String.append nl
            "The existing port will be used, as changing ports currently requires the existing installation to be uninstalled first.")])
  /\ (portsUsed (events_of same) = [8000] /\ warningsOf (events_of same) = [])
  /\ (portsUsed (events_of failed) = [8000]
      /\ warningsOf (events_of failed) =
         [String.append
            "Unable to determine which port the existing cluster was configured to use."
            (String.append nl
               "Installation will continue but may ultimately fail, in which case it will be necessarily to uninstall first.")])
  /\ (result_of unreachable
      = Returned (wrapError "unable to connect to docker: daemon not running"
                    (errorString "daemon not running"))
      /\ portsUsed (events_of unreachable) = []
      /\ warningsOf (events_of unreachable) = []).
Proof.
  split; [|split; [|split]].
  - destruct (port_reconciliation Sample.kindProvider
                (Sample.world ∅ Sample.existingCluster (Sample.dockerOn 8001))
                (initial 8000 Sample.noFlags None)
                Sample.existingCluster eq_refl eq_refl eq_refl) as [Hchecked _].
    destruct (Hchecked (Sample.dockerOn 8001) 8001 None eq_refl eq_refl)
      as [Hconflict _].
    destruct Hconflict as (_ & Hused & Hwarn & _);
      [reflexivity|discriminate|].
    split; [exact Hused|exact Hwarn].
  - destruct (port_reconciliation Sample.kindProvider
                (Sample.world ∅ Sample.existingCluster (Sample.dockerOn 8000))
                (initial 8000 Sample.noFlags None)
                Sample.existingCluster eq_refl eq_refl eq_refl) as [Hchecked _].
    destruct (Hchecked (Sample.dockerOn 8000) 8000 None eq_refl eq_refl)
      as (_ & Hsame & _).
    destruct Hsame as (_ & Hused & Hwarn & _); [reflexivity|reflexivity|].
    split; [exact Hused|exact Hwarn].
  - destruct (port_reconciliation Sample.kindProvider
                (Sample.world ∅ Sample.existingCluster Sample.dockerBroken)
                (initial 8000 Sample.noFlags None)
                Sample.existingCluster eq_refl eq_refl eq_refl) as [Hchecked _].
    destruct (Hchecked Sample.dockerBroken 0
                (Some (errorString "no such container")) eq_refl eq_refl)
      as (_ & _ & Hfailed).
    destruct Hfailed as (_ & Hused & Hwarn & _); [discriminate|].
    split; [exact Hused|exact Hwarn].
  - destruct (port_reconciliation Sample.kindProvider Sample2.worldNoDaemon
                (initial 8000 Sample.noFlags None)
                Sample.existingCluster eq_refl eq_refl eq_refl) as [_ Habort].
    destruct (Habort (errorString "daemon not running") eq_refl eq_refl)
      as (_ & Hres & _ & _ & Hwarn & Hused).
    split; [exact Hres|split; [exact Hused|exact Hwarn]].
Defined.

(** Without a docker client and without a connection, the port check is
    not reached: [RunE] returns the connection error. *)
Example RunE_no_docker :
  result_of
    (RunE Sample.kindProvider
       {| environ := ∅;
          dockerInstalled := fun dc => (inr Sample.dockerVersion, dc);
          portAvailable := fun _ dc => (None, dc);
          provider_Cluster := inr Sample.existingCluster;
          docker_New := inl (errorString "daemon not running");
          local_New := fun _ => inr Sample.installer |}
       (initial 8000 Sample.noFlags None))
  = Returned (wrapError "unable to connect to docker: daemon not running"
                (errorString "daemon not running")).
Proof. reflexivity. Qed.

(** ** The whole execution *)

Section Executions.

Context (IngressPort : Z) (provider : k8s.Provider) (W : World).
Context (cl : CommandLine) (dockerClient0 : option docker.Docker).

Local Abbreviation run := (Execute IngressPort provider W cl dockerClient0).

(** An execution queries the cluster at most once, and then only after
    the pre-run hook and the flag-group validation passed. *)
Lemma Execute_run :
  exists (r1 : step unit) (s1 : State) (evs1 evs2 : list Event),
    PreRunE W (initial IngressPort cl dockerClient0) = (r1, s1, evs1)
    /\ flags s1 = parseFlags IngressPort cl
    /\ events_of run = (evs1 ++ evs2)%list
    /\ existenceQueries evs1 = [] /\ creations evs1 = []
    /\ installs evs1 = [] /\ portsUsed evs1 = []
    /\ ((r1 = Next tt /\ cobra.ValidateFlagGroups cl = None
         /\ run = (result_of (RunE provider W s1), state_of (RunE provider W s1),
                   (evs1 ++ evs2)%list)
         /\ evs2 = events_of (RunE provider W s1))
        \/ (evs2 = [] /\ exists err : error, result_of run = Returned err)).
Proof.
  destruct (Execute_cases IngressPort provider W cl dockerClient0)
    as (r1 & s1 & evs1 & Hpre & Hcases).
  destruct (PreRunE_run W (initial IngressPort cl dockerClient0))
    as (r1' & s1' & evs1' & Hpre' & Hflags & Hq & Hc & Hi & Hu & _).
  rewrite Hpre in Hpre'. injection Hpre' as <- <- <-.
  destruct Hcases as [(-> & Hval & Hrun)|(err & _ & Hrun)].
  - exists (Next tt), s1, evs1, (events_of (RunE provider W s1)).
    rewrite Hrun. repeat split; try done. left. by repeat split.
  - exists r1, s1, evs1, []. rewrite Hrun.
    unfold events_of, result_of. simpl. rewrite app_nil_r.
    repeat split; try done. right. split; [done|]. by exists err.
Qed.

(** The options of the install invocation, when there is one. *)
Lemma Execute_installs (opts : local.InstallOpts) :
  In opts (installs (events_of run)) ->
  cobra.ValidateFlagGroups cl = None
  /\ exists dc : option docker.Docker,
       opts = finalOpts (environ W) (parseFlags IngressPort cl) dc.
Proof.
  destruct Execute_run
    as (r1 & s1 & evs1 & evs2 & Hpre & Hflags & -> & _ & _ & Hi & _ & Hcases).
  autorewrite with trace. rewrite Hi. simpl.
  destruct Hcases as [(-> & Hval & _ & ->)|[-> _]]; [|done].
  destruct (RunE_run provider W s1)
    as (r & s' & evs & Hrun & _ & _ & _ & _ & Hinst).
  rewrite Hrun. unfold events_of. simpl.
  destruct Hinst as [->|[dc ->]]; [done|].
  intros [<-|[]]. split; [done|]. exists dc. by rewrite Hflags.
Qed.

End Executions.

Lemma finalOpts_HelmChartVersion (environ : gmap string string) (f : Flags)
    (dc : option docker.Docker) :
  local.HelmChartVersion (finalOpts environ f dc) =
  if String.eqb (flagChartVersion f) "latest" then EmptyString
  else flagChartVersion f.
Proof.
  unfold finalOpts, normalizeChartVersion. simpl.
  by destruct (String.eqb (flagChartVersion f) "latest").
Qed.

(** C6.  In the options handed to the installer, the chart version is the
    empty string when the requested chart version (the flag's value, or
    its default) is the literal ["latest"], and is the requested chart
    version, unchanged, for any other literal. *)
Theorem chart_version_normalized (IngressPort : Z) (provider : k8s.Provider)
    (W : World) (cl : CommandLine) (dockerClient0 : option docker.Docker)
    (opts : local.InstallOpts) :
  In opts (installs (events_of (Execute IngressPort provider W cl dockerClient0))) ->
  let requested := default "latest" (arg_chart_version cl) in
  (requested = "latest" -> local.HelmChartVersion opts = EmptyString)
  /\ (requested <> "latest" -> local.HelmChartVersion opts = requested).
Proof.
  intros Hin requested.
  destruct (Execute_installs IngressPort provider W cl dockerClient0 opts Hin)
    as (_ & dc & ->).
  rewrite finalOpts_HelmChartVersion. simpl. fold requested.
  destruct (String.eqb_spec requested "latest"); by split.
Qed.

Lemma chart_version_normalized_witness :
  local.HelmChartVersion
    (finalOpts ∅ (parseFlags 8000 Sample.pinned) None) = "1.4.0"
  /\ local.HelmChartVersion
       (finalOpts ∅ (parseFlags 8000 Sample.noFlags) None) = EmptyString.
Proof.
  split.
  - apply (proj2 (chart_version_normalized 8000 Sample.kindProvider
                    (Sample.world ∅ Sample.noCluster (Sample.dockerOn 8000))
                    Sample.pinned None
                    (finalOpts ∅ (parseFlags 8000 Sample.pinned) None)
                    (or_introl eq_refl))).
    discriminate.
  - apply (proj1 (chart_version_normalized 8000 Sample.kindProvider
                    (Sample.world ∅ Sample.noCluster (Sample.dockerOn 8000))
                    Sample.noFlags None
                    (finalOpts ∅ (parseFlags 8000 Sample.noFlags) None)
                    (or_introl eq_refl))).
    reflexivity.
Defined.

(** ** Registry credentials *)

(** C8, as stated, fails.  With no flag given and an empty environment,
    the installer is invoked with a server (the flag's default) and no
    user name, password or email; with no flag given and only the user
    name set in the environment, it is invoked with a server and a user
    name but an empty password and an empty email. *)
Lemma partial_credentials_reach_install :
  (exists opts : local.InstallOpts,
     In opts (installs (events_of
                (Execute 8000 Sample.kindProvider
                   (Sample.world ∅ Sample.existingCluster (Sample.dockerOn 8000))
                   Sample.noFlags None)))
     /\ local.DockerServer opts = "https://index.docker.io/v1/"
     /\ local.DockerUser opts = EmptyString
     /\ local.DockerPass opts = EmptyString
     /\ local.DockerEmail opts = EmptyString
     /\ ~ credentialGroupWhole opts)
  /\ (exists opts : local.InstallOpts,
        In opts (installs (events_of
                   (Execute 8000 Sample.kindProvider
                      (Sample.world {[ envDockerUser := "bob" ]}
                         Sample.existingCluster (Sample.dockerOn 8000))
                      Sample.noFlags None)))
        /\ local.DockerServer opts = "https://index.docker.io/v1/"
        /\ local.DockerUser opts = "bob"
        /\ local.DockerPass opts = EmptyString
        /\ local.DockerEmail opts = EmptyString
        /\ ~ credentialGroupWhole opts).
Proof.
  split.
  - eexists. split; [left; reflexivity|].
    repeat split; try (vm_compute; reflexivity).
    intros [(Hserver & _)|(_ & Huser & _)].
    + vm_compute in Hserver. discriminate.
    + apply Huser. vm_compute. reflexivity.
  - eexists. split; [left; reflexivity|].
    repeat split; try (vm_compute; reflexivity).
    intros [(Hserver & _)|(_ & _ & Hpass & _)].
    + vm_compute in Hserver. discriminate.
    + apply Hpass. vm_compute. reflexivity.
Qed.

(** C8, amended.  When the installer is invoked, the flags
    [docker-username], [docker-password] and [docker-email] were either all
    given on the command line or all left out; [docker-server] is not part
    of that group.  Each of the four credential fields holds the value of
    its flag (the default when the flag was left out), replaced by the
    value of its environment variable when that is set and not empty. *)
Theorem credentials_at_install (IngressPort : Z) (provider : k8s.Provider)
    (W : World) (cl : CommandLine) (dockerClient0 : option docker.Docker)
    (opts : local.InstallOpts) :
  In opts (installs (events_of (Execute IngressPort provider W cl dockerClient0))) ->
  (cobra.Changed (arg_docker_username cl) = cobra.Changed (arg_docker_password cl)
   /\ cobra.Changed (arg_docker_password cl) = cobra.Changed (arg_docker_email cl))
  /\ local.DockerServer opts =
     envOverride (environ W)
       (default "https://index.docker.io/v1/" (arg_docker_server cl)) envDockerServer
  /\ local.DockerUser opts =
     envOverride (environ W)
       (default EmptyString (arg_docker_username cl)) envDockerUser
  /\ local.DockerPass opts =
     envOverride (environ W)
       (default EmptyString (arg_docker_password cl)) envDockerPass
  /\ local.DockerEmail opts =
     envOverride (environ W)
       (default EmptyString (arg_docker_email cl)) envDockerEmail.
Proof.
  intros Hin.
  destruct (Execute_installs IngressPort provider W cl dockerClient0 opts Hin)
    as (Hval & dc & ->).
  split.
  - unfold cobra.ValidateFlagGroups, cobra.requiredTogether_unset in Hval.
    by destruct (arg_docker_username cl), (arg_docker_password cl),
      (arg_docker_email cl).
  - unfold finalOpts, normalizeChartVersion. simpl.
    by destruct (String.eqb (default "latest" (arg_chart_version cl)) "latest").
Qed.

Lemma credentials_at_install_witness :
  let environ : gmap string string := {[ envDockerUser := "bob" ]} in
  let opts := finalOpts environ (parseFlags 8000 Sample.withCredentials) None in
  local.DockerUser opts = envOverride environ "alice" envDockerUser
  /\ local.DockerPass opts = envOverride environ "secret" envDockerPass.
Proof.
  intros environ opts.
  destruct (credentials_at_install 8000 Sample.kindProvider
              (Sample.world environ Sample.noCluster (Sample.dockerOn 8000))
              Sample.withCredentials None opts (or_introl eq_refl))
    as (_ & _ & Huser & Hpass & _).
  split; [exact Huser|exact Hpass].
Defined.

(** ** Aborting before creation *)

Section Aborts.

Context (IngressPort : Z) (provider : k8s.Provider) (W : World).

Local Abbreviation ClusterName := (k8s.ClusterName provider).

(** [RunE] without a cluster and with a mount list that does not parse:
    the parser's error is returned before [cluster.Create]. *)
Lemma RunE_malformed (s : State) (cluster : k8s.Cluster)
    (mounts : list ExtraVolumeMount) (err : error) :
  provider_Cluster W = inr cluster ->
  k8s.Exists cluster = false ->
  parseVolumeMounts (flagExtraVolumeMounts (flags s)) = (mounts, Some err) ->
  RunE provider W s =
  (Returned err, s,
   [EvSpinnerUpdateText
      ("Checking for existing Kubernetes cluster '" ++ ClusterName ++ "'");
    EvProviderCluster;
    EvInfo
      ("No existing cluster found, cluster '" ++ ClusterName ++ "' will be created");
    EvSpinnerUpdateText ("Creating cluster '" ++ ClusterName ++ "'")]).
Proof.
  intros Hq Hex Hparse. rewrite (RunE_query_ok provider W s cluster Hq).
  unfold provision. rewrite Hex. run. by rewrite Hparse.
Qed.

End Aborts.

(** C4.  An execution of the command in which the cluster-existence
    query cannot succeed, or in which no cluster exists and some mount
    spec is malformed, returns an error and contains no cluster creation
    (and no [local.New] and no install invocation).  When the execution
    gets as far as the existence query, the error returned is the query's
    own error in the first case, and the parser's error for the first
    malformed spec in the second. *)
Theorem no_creation_when_unsafe (IngressPort : Z) (provider : k8s.Provider)
    (W : World) (cl : CommandLine) (dockerClient0 : option docker.Docker) :
  let run := Execute IngressPort provider W cl dockerClient0 in
  (forall err : error,
     provider_Cluster W = inl err ->
     creations (events_of run) = []
     /\ portsUsed (events_of run) = []
     /\ installs (events_of run) = []
     /\ exists err' : error,
          result_of run = Returned err'
          /\ (existenceQueries (events_of run) <> [] -> err' = err))
  /\ (forall cluster : k8s.Cluster,
        provider_Cluster W = inr cluster ->
        k8s.Exists cluster = false ->
        Exists (fun spec => ~ twoParts spec) (default [] (arg_volume cl)) ->
        creations (events_of run) = []
        /\ portsUsed (events_of run) = []
        /\ installs (events_of run) = []
        /\ exists err' : error,
             result_of run = Returned err'
             /\ (existenceQueries (events_of run) <> [] ->
                 exists (pre : list string) (bad : string) (post : list string),
                   default [] (arg_volume cl) = (pre ++ bad :: post)%list
                   /\ Forall twoParts pre /\ ~ twoParts bad
                   /\ err' = volumeError bad)).
Proof.
  intros run.
  destruct (Execute_run IngressPort provider W cl dockerClient0)
    as (r1 & s1 & evs1 & evs2 & Hpre & Hflags & Hevs & Hq1 & Hc1 & Hi1 & Hu1
        & Hcases).
  fold run in Hevs, Hcases. rewrite Hevs. autorewrite with trace.
  rewrite Hq1, Hc1, Hi1, Hu1. simpl.
  split.
  - intros err Hq.
    destruct Hcases as [(-> & Hval & Hrun & ->)|[-> [err' Hres]]].
    + rewrite Hrun, (RunE_query_failed provider W s1 err Hq).
      unfold result_of, events_of. simpl. repeat split. by exists err.
    + autorewrite with trace. repeat split. by exists err'.
  - intros cluster Hq Hex Hbad.
    destruct Hcases as [(-> & Hval & Hrun & ->)|[-> [err' Hres]]].
    + destruct (first_malformed _ Hbad) as (pre & bad & post & Hsplit & Hok & Hnot).
      assert (parseVolumeMounts (flagExtraVolumeMounts (flags s1))
              = ([], Some (volumeError bad))) as Hparse.
      { rewrite Hflags. simpl. rewrite Hsplit.
        by apply parseVolumeMounts_loop_err. }
      rewrite Hrun, (RunE_malformed provider W s1 cluster _ _ Hq Hex Hparse).
      unfold result_of, events_of. simpl. repeat split.
      exists (volumeError bad). split; [done|]. intros _.
      by exists pre, bad, post.
    + autorewrite with trace. repeat split. by exists err'.
Qed.

Lemma no_creation_when_unsafe_witness :
  (creations (events_of (Execute 8000 Sample.kindProvider Sample.worldQueryFails
                           Sample.noFlags None)) = []
   /\ result_of (Execute 8000 Sample.kindProvider Sample.worldQueryFails
                   Sample.noFlags None)
      = Returned (errorString "kind: cannot list clusters"))
  /\ (creations (events_of
                   (Execute 8000 Sample.kindProvider
                      (Sample.world ∅ Sample.noCluster (Sample.dockerOn 8000))
                      Sample.badVolume None)) = []
      /\ result_of (Execute 8000 Sample.kindProvider
                      (Sample.world ∅ Sample.noCluster (Sample.dockerOn 8000))
                      Sample.badVolume None)
         = Returned (volumeError "badformat")).
Proof.
  split.
  - destruct (proj1 (no_creation_when_unsafe 8000 Sample.kindProvider
                       Sample.worldQueryFails Sample.noFlags None)
                (errorString "kind: cannot list clusters") eq_refl)
      as (Hnone & _ & _ & _).
    split; [exact Hnone|reflexivity].
  - destruct (proj2 (no_creation_when_unsafe 8000 Sample.kindProvider
                       (Sample.world ∅ Sample.noCluster (Sample.dockerOn 8000))
                       Sample.badVolume None)
                Sample.noCluster eq_refl eq_refl)
      as (Hnone & _ & _ & _).
    + apply Exists_cons_tl, Exists_cons_hd. unfold twoParts. simpl. lia.
    + split; [exact Hnone|reflexivity].
Defined.

(** ** The port pre-check *)

(** C7, as stated, fails.  With an existing cluster that is found and
    reused (the execution completes with an install invocation), the
    availability of the requested port 8000 was checked; and with an
    existing cluster and the requested port bound, the execution fails at
    that check, before the cluster is looked up. *)
Lemma port_checked_with_existing_cluster :
  (k8s.Exists Sample.existingCluster = true
   /\ provider_Cluster
        (Sample.world ∅ Sample.existingCluster (Sample.dockerOn 8000))
      = inr Sample.existingCluster
   /\ result_of
        (Execute 8000 Sample.kindProvider
           (Sample.world ∅ Sample.existingCluster (Sample.dockerOn 8000))
           Sample.noFlags None) = Next tt
   /\ portChecks
        (events_of
           (Execute 8000 Sample.kindProvider
              (Sample.world ∅ Sample.existingCluster (Sample.dockerOn 8000))
              Sample.noFlags None)) = [8000])
  /\ (provider_Cluster Sample.worldPortTaken = inr Sample.existingCluster
      /\ result_of
           (Execute 8000 Sample.kindProvider Sample.worldPortTaken
              Sample.noFlags None)
         = Returned
             (wrapError "port 8000 is not available: address already in use"
                (errorString "address already in use"))
      /\ existenceQueries
           (events_of
              (Execute 8000 Sample.kindProvider Sample.worldPortTaken
                 Sample.noFlags None)) = []).
Proof. repeat split. Qed.

(** C7, amended.  The port-availability pre-check belongs to the pre-run
    hook and is made in every execution that gets that far, before the
    cluster-existence query and whatever the query then answers: an
    execution that queries the cluster, with or without an existing one,
    has checked the requested port exactly once, before the query, and
    that check succeeded. *)
Theorem port_check_precedes_query (IngressPort : Z) (provider : k8s.Provider)
    (W : World) (cl : CommandLine) (dockerClient0 : option docker.Docker) :
  let run := Execute IngressPort provider W cl dockerClient0 in
  let requested := default IngressPort (arg_port cl) in
  existenceQueries (events_of run) <> [] ->
  exists pre post : list Event,
    events_of run = (pre ++ post)%list
    /\ portChecks pre = [requested] /\ existenceQueries pre = []
    /\ portChecks post = [] /\ existenceQueries post = [tt]
    /\ exists (v : docker.Version) (dc1 dc2 : option docker.Docker),
         dockerInstalled W dockerClient0 = (inr v, dc1)
         /\ portAvailable W requested dc1 = (None, dc2).
Proof.
  intros run requested Hquery.
  destruct (Execute_run IngressPort provider W cl dockerClient0)
    as (r1 & s1 & evs1 & evs2 & Hpre & Hflags & Hevs & Hq1 & _ & _ & _ & Hcases).
  fold run in Hevs, Hcases. rewrite Hevs in Hquery |- *.
  autorewrite with trace in Hquery. rewrite Hq1 in Hquery. simpl in Hquery.
  destruct Hcases as [(-> & _ & _ & ->)|[-> _]]; [|done].
  destruct (PreRunE_run W (initial IngressPort cl dockerClient0))
    as (r1' & s1' & evs1' & Hpre' & _ & _ & _ & _ & _ & Hchecked).
  rewrite Hpre in Hpre'. injection Hpre' as <- <- <-.
  destruct (Hchecked eq_refl) as (Hport & v & dc1 & Hdocker & Havail).
  destruct (RunE_run provider W s1) as (r & s' & evs & Hrun & _ & Hp & Hq & _).
  exists evs1, (events_of (RunE provider W s1)).
  rewrite Hrun. unfold events_of. simpl.
  repeat split; try done.
  exists v, dc1, (dockerClient s1). by split.
Qed.

Lemma port_check_precedes_query_witness :
  exists pre post : list Event,
    events_of (Execute 8000 Sample.kindProvider
                 (Sample.world ∅ Sample.existingCluster (Sample.dockerOn 8000))
                 Sample.noFlags None) = (pre ++ post)%list
    /\ portChecks pre = [8000] /\ existenceQueries pre = []
    /\ portChecks post = [] /\ existenceQueries post = [tt].
Proof.
  destruct (port_check_precedes_query 8000 Sample.kindProvider
              (Sample.world ∅ Sample.existingCluster (Sample.dockerOn 8000))
              Sample.noFlags None)
    as (pre & post & Hevs & Hp & Hq & Hp' & Hq' & _).
  - discriminate.
  - exists pre, post. repeat split; assumption.
Defined.

(** * Further properties *)

(** ** The mount parser *)

Lemma mountOf_formatMount (m : ExtraVolumeMount) :
  strings.Count (HostPath m) colon = 0%nat ->
  strings.Count (ContainerPath m) colon = 0%nat ->
  twoParts (formatMount m) /\ mountOf (formatMount m) = m.
Proof.
  intros Hh Hc. unfold twoParts, mountOf, formatMount.
  rewrite Split_app_sep by done. rewrite (Split_no_sep_id _ _ Hc).
  split; [reflexivity|]. by destruct m.
Qed.

(** X1.  [parseVolumeMounts] returns a [nil] error exactly when every
    raw spec contains exactly one [":"]; the slice it returns then has the
    length of the input, and is [nil] otherwise. *)
Theorem parseVolumeMounts_accepts (specs : list string) :
  ((parseVolumeMounts specs).2 = None
   <-> Forall (fun spec => strings.Count spec colon = 1%nat) specs)
  /\ length (parseVolumeMounts specs).1 =
     match (parseVolumeMounts specs).2 with
     | Some _ => 0%nat
     | None => length specs
     end.
Proof.
  assert (Forall twoParts specs
          <-> Forall (fun spec => strings.Count spec colon = 1%nat) specs) as Hiff.
  { apply Forall_iff. intros spec. apply twoParts_iff_one_colon. }
  rewrite <- Hiff.
  destruct (parseVolumeMounts_cases specs)
    as [[Hall ->]|(pre & bad & post & -> & Hpre & Hbad & ->)]; simpl.
  - split; [done|]. by rewrite length_map.
  - split; [|done]. split; [done|].
    intros Hall. apply Forall_app in Hall as [_ Hall].
    by inversion Hall.
Qed.

(** X2.  Parsing undoes formatting: for mounts whose paths contain no
    [":"], parsing their specs [<HOST_PATH>:<GUEST_PATH>] returns exactly
    these mounts, in order, and no error. *)
Theorem parseVolumeMounts_formatMount (mounts : list ExtraVolumeMount) :
  Forall (fun m => strings.Count (HostPath m) colon = 0%nat
                   /\ strings.Count (ContainerPath m) colon = 0%nat) mounts ->
  parseVolumeMounts (map formatMount mounts) = (mounts, None).
Proof.
  intros Hall.
  assert (Forall twoParts (map formatMount mounts)
          /\ map mountOf (map formatMount mounts) = mounts) as [Htwo Hmap].
  { induction Hall as [|m rest [Hh Hc] Hrest [IH1 IH2]]; simpl; [done|].
    destruct (mountOf_formatMount m Hh Hc) as [H2 Hm].
    split; [by constructor|]. by rewrite Hm, IH2. }
  by rewrite (parseVolumeMounts_ok _ Htwo), Hmap.
Qed.

Lemma parseVolumeMounts_formatMount_witness :
  parseVolumeMounts
    (map formatMount
       [ {| HostPath := "/data"; ContainerPath := "/var/data" |};
         {| HostPath := EmptyString; ContainerPath := "/tmp" |} ])
  = ([ {| HostPath := "/data"; ContainerPath := "/var/data" |};
       {| HostPath := EmptyString; ContainerPath := "/tmp" |} ], None).
Proof.
  apply (parseVolumeMounts_formatMount
           [ {| HostPath := "/data"; ContainerPath := "/var/data" |};
             {| HostPath := EmptyString; ContainerPath := "/tmp" |} ]).
  repeat constructor.
Defined.

(** X3.  Parsing a concatenation: when both lists parse, the result is
    the concatenation of the two results; otherwise the result is the
    [nil] slice with the error of the first list when that one fails, and
    with the error of the second list when only that one fails. *)
Theorem parseVolumeMounts_app (specs1 specs2 : list string) :
  parseVolumeMounts (specs1 ++ specs2) =
  match parseVolumeMounts specs1, parseVolumeMounts specs2 with
  | (_, Some err), _ => ([], Some err)
  | (_, None), (_, Some err) => ([], Some err)
  | (mounts1, None), (mounts2, None) => ((mounts1 ++ mounts2)%list, None)
  end.
Proof.
  destruct (parseVolumeMounts_cases specs1)
    as [[Hall1 ->]|(pre & bad & post & -> & Hpre & Hbad & ->)].
  - destruct (parseVolumeMounts_cases specs2)
      as [[Hall2 ->]|(pre & bad & post & -> & Hpre & Hbad & ->)].
    + rewrite parseVolumeMounts_ok by (by apply Forall_app).
      by rewrite map_app.
    + rewrite app_assoc.
      by apply parseVolumeMounts_loop_err; [apply Forall_app|].
  - rewrite <- app_assoc. simpl.
    by apply parseVolumeMounts_loop_err.
Qed.

(** ** The environment overrides *)

Lemma envOverride_idem (environ : gmap string string) (original env : string) :
  envOverride environ (envOverride environ original env) env
  = envOverride environ original env.
Proof.
  unfold envOverride.
  by destruct (negb (String.eqb (os.Getenv environ env) EmptyString)).
Qed.

Lemma envOverride_lookup (env1 env2 : gmap string string)
    (original env : string) :
  env1 !! env = env2 !! env ->
  envOverride env1 original env = envOverride env2 original env.
Proof. intros Heq. unfold envOverride, os.Getenv. by rewrite Heq. Qed.

(** X4.  Applying the four overrides a second time changes nothing. *)
Theorem applyEnvOverrides_idem (environ : gmap string string)
    (opts : local.InstallOpts) :
  applyEnvOverrides environ (applyEnvOverrides environ opts)
  = applyEnvOverrides environ opts.
Proof.
  unfold applyEnvOverrides. simpl. by rewrite !envOverride_idem.
Qed.

(** X5.  When none of the four docker variables has a non-empty value,
    the overrides leave the options exactly as they were. *)
Theorem applyEnvOverrides_unset (environ : gmap string string)
    (opts : local.InstallOpts) :
  Forall (fun env => os.Getenv environ env = EmptyString) dockerVariables ->
  applyEnvOverrides environ opts = opts.
Proof.
  intros Hunset.
  apply Forall_cons in Hunset as [Hserver Hunset].
  apply Forall_cons in Hunset as [Huser Hunset].
  apply Forall_cons in Hunset as [Hpass Hunset].
  apply Forall_cons in Hunset as [Hemail _].
  unfold applyEnvOverrides, envOverride. simpl.
  rewrite Hserver, Huser, Hpass, Hemail. by destruct opts.
Qed.

Lemma applyEnvOverrides_unset_witness :
  applyEnvOverrides
    {[ envDockerPass := EmptyString; envBasicAuthUser := "admin" ]}
    (buildOpts (parseFlags 8000 Sample.withCredentials) None)
  = buildOpts (parseFlags 8000 Sample.withCredentials) None.
Proof.
  apply (applyEnvOverrides_unset
           {[ envDockerPass := EmptyString; envBasicAuthUser := "admin" ]}).
  repeat constructor.
Defined.

Lemma applyEnvOverrides_agree (env1 env2 : gmap string string)
    (opts : local.InstallOpts) :
  Forall (fun env => env1 !! env = env2 !! env) dockerVariables ->
  applyEnvOverrides env1 opts = applyEnvOverrides env2 opts.
Proof.
  intros Hagree.
  apply Forall_cons in Hagree as [Hserver Hagree].
  apply Forall_cons in Hagree as [Huser Hagree].
  apply Forall_cons in Hagree as [Hpass Hagree].
  apply Forall_cons in Hagree as [Hemail _].
  unfold applyEnvOverrides. simpl.
  by rewrite (envOverride_lookup env1 env2 _ _ Hserver),
    (envOverride_lookup env1 env2 _ _ Huser),
    (envOverride_lookup env1 env2 _ _ Hpass),
    (envOverride_lookup env1 env2 _ _ Hemail).
Qed.

#[global] Arguments applyEnvOverrides : simpl never.

Lemma install_environ (W : World) (env : gmap string string) (s : State) :
  Forall (fun name => env !! name = environ W !! name) dockerVariables ->
  install (withEnviron env W) s = install W s.
Proof.
  intros Hagree. unfold install. run.
  destruct (local_New W (flagPort (flags s))) as [err|lc]; [done|]. run.
  by rewrite (applyEnvOverrides_agree env (environ W)).
Qed.

(** X6.  An execution reads four variables of the environment and no
    other: in two environments that agree on the four docker variables, the
    same command line with the same collaborators gives the same result,
    the same final state and the same events.  In particular the variables
    [ABCTL_LOCAL_INSTALL_USERNAME] and [ABCTL_LOCAL_INSTALL_PASSWORD] have no
    effect. *)
Theorem Execute_environ (IngressPort : Z) (provider : k8s.Provider)
    (W : World) (env : gmap string string) (cl : CommandLine)
    (dockerClient0 : option docker.Docker) :
  Forall (fun name => env !! name = environ W !! name) dockerVariables ->
  Execute IngressPort provider (withEnviron env W) cl dockerClient0
  = Execute IngressPort provider W cl dockerClient0.
Proof.
  intros Hagree.
  unfold Execute, execute.
  change (PreRunE (withEnviron env W)) with (PreRunE W).
  destruct (PreRunE W (initial IngressPort cl dockerClient0))
    as [[[[]|err] s1] evs1] eqn:Hpre.
  - rewrite !(bind_Next _ _ _ _ _ _ Hpre). do 3 f_equal;
      destruct (cobra.ValidateFlagGroups cl); try done;
      unfold RunE; run;
      change (provider_Cluster (withEnviron env W)) with (provider_Cluster W);
      destruct (provider_Cluster W) as [err|cluster]; try done;
      change (provision provider (withEnviron env W) cluster)
        with (provision provider W cluster);
      destruct (provision provider W cluster s1) as [[[[]|err] s2] evs2];
      try done; by rewrite (install_environ W env s2 Hagree).
  - by rewrite !(bind_Returned _ _ _ _ _ _ Hpre).
Qed.

Lemma Execute_environ_witness :
  Execute 8000 Sample.kindProvider
    (withEnviron
       {[ envBasicAuthUser := "admin"; envBasicAuthPass := "hunter2";
          envDockerUser := "bob" ]}
       (Sample.world {[ envDockerUser := "bob" ]} Sample.noCluster
          (Sample.dockerOn 8000)))
    Sample.noFlags None
  = Execute 8000 Sample.kindProvider
      (Sample.world {[ envDockerUser := "bob" ]} Sample.noCluster
         (Sample.dockerOn 8000))
      Sample.noFlags None.
Proof.
  apply (Execute_environ 8000 Sample.kindProvider
           (Sample.world {[ envDockerUser := "bob" ]} Sample.noCluster
              (Sample.dockerOn 8000))).
  repeat constructor.
Defined.

(** ** The pre-run hook and the flag group *)

Lemma string_app_assoc (a b c : string) : (a ++ b) ++ c = a ++ b ++ c.
Proof.
  induction a as [|x a IH]; [reflexivity|].
  change (String x ((a ++ b) ++ c) = String x (a ++ b ++ c)). by f_equal.
Qed.

(** X7.  When the docker installation cannot be determined, the execution
    ends there: the error returned wraps the cause with the prefix
    [unable to determine docker installation status], and neither the port
    check nor anything after it happens. *)
Theorem Execute_docker_unknown (IngressPort : Z) (provider : k8s.Provider)
    (W : World) (cl : CommandLine) (dockerClient0 dc1 : option docker.Docker)
    (err : error) :
  dockerInstalled W dockerClient0 = (inl err, dc1) ->
  Execute IngressPort provider W cl dockerClient0 =
  (Returned
     (wrapError ("unable to determine docker installation status: " ++ Error err)
        err),
   {| flags := parseFlags IngressPort cl; dockerClient := dc1 |},
   [EvSpinnerStart "Starting installation";
    EvSpinnerUpdateText "Checking for Docker installation";
    EvDockerInstalled;
    EvError "Unable to determine if Docker is installed"]).
Proof.
  intros Hdocker. unfold Execute, execute.
  apply bind_Returned. unfold PreRunE. run. by rewrite Hdocker.
Qed.

Lemma Execute_docker_unknown_witness :
  result_of (Execute 8000 Sample.kindProvider Sample2.worldNoDocker
               Sample.noFlags None)
  = Returned
      (wrapError
         "unable to determine docker installation status: docker: not found"
         (errorString "docker: not found"))
  /\ portChecks (events_of (Execute 8000 Sample.kindProvider
                              Sample2.worldNoDocker Sample.noFlags None)) = [].
Proof.
  rewrite (Execute_docker_unknown 8000 Sample.kindProvider Sample2.worldNoDocker
             Sample.noFlags None None (errorString "docker: not found") eq_refl).
  split; reflexivity.
Defined.

(** X8.  When the requested port is not available, the execution ends at
    the pre-check: the error returned wraps the cause with the prefix
    [port N is not available], [N] being the requested port, and the
    cluster is not looked up. *)
Theorem Execute_port_unavailable (IngressPort : Z) (provider : k8s.Provider)
    (W : World) (cl : CommandLine)
    (dockerClient0 dc1 dc2 : option docker.Docker)
    (v : docker.Version) (err : error) :
  dockerInstalled W dockerClient0 = (inr v, dc1) ->
  portAvailable W (default IngressPort (arg_port cl)) dc1 = (Some err, dc2) ->
  Execute IngressPort provider W cl dockerClient0 =
  (Returned
     (wrapError
        ("port " ++ fmt_d (default IngressPort (arg_port cl))
         ++ " is not available: " ++ Error err)
        err),
   {| flags := parseFlags IngressPort cl; dockerClient := dc2 |},
   [EvSpinnerStart "Starting installation";
    EvSpinnerUpdateText "Checking for Docker installation";
    EvDockerInstalled;
    EvTelemetryAttr "docker_version" (docker.version v);
    EvTelemetryAttr "docker_arch" (docker.Arch v);
    EvTelemetryAttr "docker_platform" (docker.Platform v);
    EvSpinnerUpdateText
      ("Checking if port " ++ fmt_d (default IngressPort (arg_port cl))
       ++ " is available");
    EvPortAvailable (default IngressPort (arg_port cl))]).
Proof.
  intros Hdocker Hport. unfold Execute, execute.
  apply bind_Returned. unfold PreRunE. run. rewrite Hdocker. run.
  rewrite Hport. run. unfold Errorf_w.
  by rewrite !string_app_assoc.
Qed.

Lemma Execute_port_unavailable_witness :
  result_of (Execute 8000 Sample.kindProvider Sample.worldPortTaken
               Sample.port9000 None)
  = Returned
      (wrapError "port 9000 is not available: address already in use"
         (errorString "address already in use"))
  /\ existenceQueries
       (events_of (Execute 8000 Sample.kindProvider Sample.worldPortTaken
                     Sample.port9000 None)) = [].
Proof.
  rewrite (Execute_port_unavailable 8000 Sample.kindProvider
             Sample.worldPortTaken Sample.port9000 None None None
             Sample.dockerVersion (errorString "address already in use")
             eq_refl eq_refl).
  split; reflexivity.
Defined.

(** X9.  When both pre-checks succeed, the pre-run hook returns [nil]
    after recording the docker version, architecture and platform as
    telemetry attributes and checking exactly the port in [flagPort]; it
    assigns no flag variable. *)
Theorem PreRunE_passes (W : World) (s : State) (v : docker.Version)
    (dc1 dc2 : option docker.Docker) :
  dockerInstalled W (dockerClient s) = (inr v, dc1) ->
  portAvailable W (flagPort (flags s)) dc1 = (None, dc2) ->
  PreRunE W s =
  (Next tt,
   {| flags := flags s; dockerClient := dc2 |},
   [EvSpinnerStart "Starting installation";
    EvSpinnerUpdateText "Checking for Docker installation";
    EvDockerInstalled;
    EvTelemetryAttr "docker_version" (docker.version v);
    EvTelemetryAttr "docker_arch" (docker.Arch v);
    EvTelemetryAttr "docker_platform" (docker.Platform v);
    EvSpinnerUpdateText
      ("Checking if port " ++ fmt_d (flagPort (flags s)) ++ " is available");
    EvPortAvailable (flagPort (flags s))]).
Proof.
  intros Hdocker Hport. unfold PreRunE. run. rewrite Hdocker. run.
  by rewrite Hport.
Qed.

Lemma PreRunE_passes_witness :
  PreRunE (Sample.world ∅ Sample.noCluster (Sample.dockerOn 8000))
    (initial 8000 Sample.port9000 None)
  = (Next tt,
     {| flags := parseFlags 8000 Sample.port9000; dockerClient := None |},
     [EvSpinnerStart "Starting installation";
      EvSpinnerUpdateText "Checking for Docker installation";
      EvDockerInstalled;
      EvTelemetryAttr "docker_version" "27.0.3";
      EvTelemetryAttr "docker_arch" "amd64";
      EvTelemetryAttr "docker_platform" "linux";
      EvSpinnerUpdateText "Checking if port 9000 is available";
      EvPortAvailable 9000]).
Proof.
  apply (PreRunE_passes (Sample.world ∅ Sample.noCluster (Sample.dockerOn 8000))
           (initial 8000 Sample.port9000 None) Sample.dockerVersion None None
           eq_refl eq_refl).
Defined.

Lemma ValidateFlagGroups_None (cl : CommandLine) :
  cobra.ValidateFlagGroups cl = None
  <-> (cobra.Changed (arg_docker_username cl) = cobra.Changed (arg_docker_password cl)
       /\ cobra.Changed (arg_docker_password cl) = cobra.Changed (arg_docker_email cl)).
Proof.
  unfold cobra.ValidateFlagGroups, cobra.requiredTogether_unset.
  destruct (arg_docker_username cl), (arg_docker_password cl),
    (arg_docker_email cl); simpl; split; try done; intros [? ?]; done.
Qed.

(** X10.  When some but not all of the flags [docker-username],
    [docker-password] and [docker-email] are given, the execution returns an
    error without looking up the cluster: nothing is created, [local.New]
    is not called and the installer is not invoked. *)
Theorem Execute_partial_flag_group (IngressPort : Z) (provider : k8s.Provider)
    (W : World) (cl : CommandLine) (dockerClient0 : option docker.Docker) :
  ~ (cobra.Changed (arg_docker_username cl) = cobra.Changed (arg_docker_password cl)
     /\ cobra.Changed (arg_docker_password cl) = cobra.Changed (arg_docker_email cl)) ->
  let run := Execute IngressPort provider W cl dockerClient0 in
  (exists err : error, result_of run = Returned err)
  /\ existenceQueries (events_of run) = []
  /\ creations (events_of run) = []
  /\ portsUsed (events_of run) = []
  /\ installs (events_of run) = [].
Proof.
  intros Hpartial run.
  destruct (Execute_run IngressPort provider W cl dockerClient0)
    as (r1 & s1 & evs1 & evs2 & _ & _ & Hevs & Hq & Hc & Hi & Hu & Hcases).
  fold run in Hevs, Hcases.
  destruct Hcases as [(_ & Hval & _)|[-> Herr]].
  - by apply ValidateFlagGroups_None in Hval.
  - rewrite Hevs, app_nil_r. by repeat split.
Qed.

Lemma Execute_partial_flag_group_witness :
  (exists err : error,
     result_of (Execute 8000 Sample.kindProvider
                  (Sample.world ∅ Sample.noCluster (Sample.dockerOn 8000))
                  Sample2.onlyUsername None) = Returned err)
  /\ existenceQueries
       (events_of (Execute 8000 Sample.kindProvider
                     (Sample.world ∅ Sample.noCluster (Sample.dockerOn 8000))
                     Sample2.onlyUsername None)) = [].
Proof.
  destruct (Execute_partial_flag_group 8000 Sample.kindProvider
              (Sample.world ∅ Sample.noCluster (Sample.dockerOn 8000))
              Sample2.onlyUsername None) as (Herr & Hquery & _).
  - intros [Hup _]. discriminate Hup.
  - split; [exact Herr|exact Hquery].
Defined.

(** ** The run function, path by path *)

(** Case analysis on the next collaborator's answer. *)
Ltac next_answer :=
  match goal with
  | |- context [match ?x with _ => _ end] =>
      lazymatch x with
      | context [match _ with _ => _ end] => fail
      | _ => destruct x eqn:?
      end
  end.

(** Unfolds [RunE] and splits the goal along every path through it. *)
Ltac all_paths :=
  unfold RunE, provision, checkExistingPort, install; run;
  repeat (next_answer; run).

(** X11.  The package's docker client is created lazily and at most
    once: [RunE] connects to the docker daemon exactly when no client is at
    hand and an existing cluster of the kind provider is to be validated;
    it never connects twice, and with a client at hand it never connects. *)
Theorem RunE_connects (provider : k8s.Provider) (W : World) (s : State) :
  let evs := events_of (RunE provider W s) in
  (connections evs = [] \/ connections evs = [tt])
  /\ (connections evs = [tt]
      <-> (dockerClient s = None
           /\ k8s.Name provider = k8s.Kind
           /\ exists cluster : k8s.Cluster,
                provider_Cluster W = inr cluster /\ k8s.Exists cluster = true)).
Proof.
  destruct s as [f dc]. simpl.
  all_paths; unfold events_of, connections; simpl;
    (split; [auto|]); (split; [try discriminate; eauto 10|]);
    intros (? & ? & ? & ? & ?); simplify_eq; congruence.
Qed.

(** Computes the projections of the traces in the goal and the context. *)
Ltac read_trace :=
  unfold events_of, result_of, state_of, warningsOf, portsUsed, portChecks,
    existenceQueries, creations, installs, connections, portQueries in *;
  simpl in *.

(** A collaborator gives one answer per question. *)
Ltac same_answers :=
  repeat match goal with
         | H1 : ?x = _, H2 : ?x = _ |- _ => rewrite H1 in H2; simplify_eq
         end.

(** Case analysis on membership in a short list. *)
Ltac which_member :=
  repeat match goal with
         | H : _ \/ _ |- _ => destruct H
         | H : False |- _ => destruct H
         end.

(** Splits along every path through [RunE] and drops the paths the
    hypotheses exclude. *)
Ltac by_paths :=
  all_paths; read_trace; simplify_eq;
  try match goal with
      | H : negb (Z.eqb ?x ?x) = true |- _ =>
          rewrite Z.eqb_refl in H; discriminate H
      end;
  try congruence.

(** X12.  An existing cluster of a provider other than kind is reused as
    it is: [RunE] neither connects to docker nor queries a port, prints no
    warning, leaves [flagPort] and [dockerClient] unchanged and calls
    [local.New] with the provided port; what it returns is what the install
    block returns. *)
Theorem RunE_other_provider (provider : k8s.Provider) (W : World) (s : State)
    (cluster : k8s.Cluster) :
  provider_Cluster W = inr cluster ->
  k8s.Exists cluster = true ->
  k8s.Name provider = k8s.OtherProvider ->
  let run := RunE provider W s in
  state_of run = s
  /\ result_of run = result_of (install W s)
  /\ connections (events_of run) = []
  /\ portQueries (events_of run) = []
  /\ warningsOf (events_of run) = []
  /\ creations (events_of run) = []
  /\ portsUsed (events_of run) = [flagPort (flags s)].
Proof.
  intros Hq Hex Hname. destruct s as [f dc]. simpl.
  by_paths; by repeat split.
Qed.

Lemma RunE_other_provider_witness :
  portsUsed (events_of
     (RunE Sample2.otherProvider
        (Sample.world ∅ Sample.existingCluster (Sample.dockerOn 8001))
        (initial 8000 Sample.noFlags None))) = [8000]
  /\ connections (events_of
       (RunE Sample2.otherProvider
          (Sample.world ∅ Sample.existingCluster (Sample.dockerOn 8001))
          (initial 8000 Sample.noFlags None))) = [].
Proof.
  destruct (RunE_other_provider Sample2.otherProvider
              (Sample.world ∅ Sample.existingCluster (Sample.dockerOn 8001))
              (initial 8000 Sample.noFlags None) Sample.existingCluster
              eq_refl eq_refl eq_refl)
    as (_ & _ & Hconn & _ & _ & _ & Hused).
  split; [exact Hused|exact Hconn].
Defined.

(** X13.  With an existing kind cluster, no docker client at hand and
    the docker daemon unreachable, [RunE] returns the connection error
    wrapped with the prefix [unable to connect to docker]; the port is not
    queried, [local.New] is not called and the installer is not invoked. *)
Theorem RunE_no_daemon (provider : k8s.Provider) (W : World) (s : State)
    (cluster : k8s.Cluster) (err : error) :
  provider_Cluster W = inr cluster ->
  k8s.Exists cluster = true ->
  k8s.Name provider = k8s.Kind ->
  dockerClient s = None ->
  docker_New W = inl err ->
  RunE provider W s =
  (Returned (wrapError ("unable to connect to docker: " ++ Error err) err), s,
   [EvSpinnerUpdateText
      ("Checking for existing Kubernetes cluster '"
       ++ k8s.ClusterName provider ++ "'");
    EvProviderCluster;
    EvSuccess ("Existing cluster '" ++ k8s.ClusterName provider ++ "' found");
    EvSpinnerUpdateText
      ("Validating existing cluster '" ++ k8s.ClusterName provider ++ "'");
    EvDockerNew;
    EvError "Unable to connect to Docker daemon"]).
Proof.
  intros Hq Hex Hname Hdc Hnew. destruct s as [f dc]. simpl in Hdc. subst dc.
  by_paths; reflexivity.
Qed.

Lemma RunE_no_daemon_witness :
  result_of (RunE Sample.kindProvider Sample2.worldNoDaemon
               (initial 8000 Sample.noFlags None))
  = Returned (wrapError "unable to connect to docker: daemon not running"
                (errorString "daemon not running")).
Proof.
  rewrite (RunE_no_daemon Sample.kindProvider Sample2.worldNoDaemon
             (initial 8000 Sample.noFlags None) Sample.existingCluster
             (errorString "daemon not running")
             eq_refl eq_refl eq_refl eq_refl eq_refl).
  reflexivity.
Defined.

(** X14.  Without an existing cluster and with mount specs that parse,
    [RunE] calls [cluster.Create] exactly once, with the provided port and
    the parsed mounts in order; it neither connects to docker nor queries a
    port, prints no warning and changes no state. *)
Theorem RunE_creates (provider : k8s.Provider) (W : World) (s : State)
    (cluster : k8s.Cluster) (mounts : list ExtraVolumeMount) :
  provider_Cluster W = inr cluster ->
  k8s.Exists cluster = false ->
  parseVolumeMounts (flagExtraVolumeMounts (flags s)) = (mounts, None) ->
  let run := RunE provider W s in
  creations (events_of run) = [(flagPort (flags s), mounts)]
  /\ connections (events_of run) = []
  /\ portQueries (events_of run) = []
  /\ warningsOf (events_of run) = []
  /\ state_of run = s.
Proof.
  intros Hq Hex Hparse. destruct s as [f dc]. simpl in *.
  by_paths; by repeat split.
Qed.

Lemma RunE_creates_witness :
  creations (events_of
     (RunE Sample.kindProvider
        (Sample.world ∅ Sample.noCluster (Sample.dockerOn 8000))
        (initial 8000 Sample.port9000 None)))
  = [(9000, [ {| HostPath := "/data"; ContainerPath := "/var/data" |} ])].
Proof.
  apply (RunE_creates Sample.kindProvider
           (Sample.world ∅ Sample.noCluster (Sample.dockerOn 8000))
           (initial 8000 Sample.port9000 None) Sample.noCluster
           [ {| HostPath := "/data"; ContainerPath := "/var/data" |} ]
           eq_refl eq_refl eq_refl).
Defined.

(** X15.  When [cluster.Create] fails, [RunE] returns its error as it is,
    right after the creation: [local.New] is not called and the installer
    is not invoked. *)
Theorem RunE_create_fails (provider : k8s.Provider) (W : World) (s : State)
    (cluster : k8s.Cluster) (mounts : list ExtraVolumeMount) (err : error) :
  provider_Cluster W = inr cluster ->
  k8s.Exists cluster = false ->
  parseVolumeMounts (flagExtraVolumeMounts (flags s)) = (mounts, None) ->
  k8s.Create cluster (flagPort (flags s)) mounts = Some err ->
  RunE provider W s =
  (Returned err, s,
   [EvSpinnerUpdateText
      ("Checking for existing Kubernetes cluster '"
       ++ k8s.ClusterName provider ++ "'");
    EvProviderCluster;
    EvInfo ("No existing cluster found, cluster '"
            ++ k8s.ClusterName provider ++ "' will be created");
    EvSpinnerUpdateText ("Creating cluster '" ++ k8s.ClusterName provider ++ "'");
    EvClusterCreate (flagPort (flags s)) mounts;
    EvError ("Cluster '" ++ k8s.ClusterName provider ++ "' could not be created")]).
Proof.
  intros Hq Hex Hparse Hcreate. destruct s as [f dc]. simpl in *.
  by_paths; reflexivity.
Qed.

Lemma RunE_create_fails_witness :
  result_of (RunE Sample.kindProvider
               (Sample.world ∅ Sample2.brokenCluster (Sample.dockerOn 8000))
               (initial 8000 Sample.noFlags None))
  = Returned (errorString "kind: out of disk").
Proof.
  rewrite (RunE_create_fails Sample.kindProvider
             (Sample.world ∅ Sample2.brokenCluster (Sample.dockerOn 8000))
             (initial 8000 Sample.noFlags None) Sample2.brokenCluster []
             (errorString "kind: out of disk")
             eq_refl eq_refl eq_refl eq_refl).
  reflexivity.
Defined.

(** X16.  When [local.New], called with some port, fails, [RunE] returns
    its error wrapped with the prefix [unable to initialize local command]
    and the installer is not invoked. *)
Theorem RunE_local_fails (provider : k8s.Provider) (W : World) (s : State)
    (port : Z) (err : error) :
  In port (portsUsed (events_of (RunE provider W s))) ->
  local_New W port = inl err ->
  result_of (RunE provider W s) =
    Returned (wrapError ("unable to initialize local command: " ++ Error err) err)
  /\ installs (events_of (RunE provider W s)) = [].
Proof.
  destruct s as [f dc]. revert port err.
  by_paths; intros port err' Hin Hnew; read_trace; which_member;
    simplify_eq; same_answers; done.
Qed.

Lemma RunE_local_fails_witness :
  result_of (RunE Sample.kindProvider Sample2.worldNoLocal
               (initial 8000 Sample.noFlags None))
  = Returned (wrapError "unable to initialize local command: no kubeconfig"
                (errorString "no kubeconfig"))
  /\ installs (events_of (RunE Sample.kindProvider Sample2.worldNoLocal
                            (initial 8000 Sample.noFlags None))) = [].
Proof.
  apply (RunE_local_fails Sample.kindProvider Sample2.worldNoLocal
           (initial 8000 Sample.noFlags None) 8000
           (errorString "no kubeconfig")).
  - left. reflexivity.
  - reflexivity.
Defined.

(** X17.  When the installer is invoked, it is invoked once, on the
    command that [local.New] returned for the one port it was called with;
    the options carry the package's docker client as it is at that point;
    and [RunE] returns [nil] when the installer returns [nil], and the
    installer's error, as it is, otherwise. *)
Theorem RunE_installs (provider : k8s.Provider) (W : World) (s : State)
    (opts : local.InstallOpts) :
  In opts (installs (events_of (RunE provider W s))) ->
  exists (port : Z) (lc : local.Command),
    portsUsed (events_of (RunE provider W s)) = [port]
    /\ local_New W port = inr lc
    /\ installs (events_of (RunE provider W s)) = [opts]
    /\ local.Docker opts = dockerClient (state_of (RunE provider W s))
    /\ result_of (RunE provider W s) =
       match local.Install lc opts with
       | Some err => Returned err
       | None => Next tt
       end.
Proof.
  destruct s as [f dc]. revert opts.
  by_paths; intros opts Hin; read_trace; which_member;
    subst opts;
    match goal with
    | Hnew : local_New W ?p = inr ?lc, Hinst : local.Install ?lc _ = _ |- _ =>
        exists p, lc; rewrite Hinst; repeat split;
        unfold normalizeChartVersion; simpl;
        by destruct (String.eqb (flagChartVersion f) "latest")
    end.
Qed.

Lemma RunE_installs_witness :
  result_of (RunE Sample.kindProvider Sample2.worldInstallFails
               (initial 8000 Sample.noFlags None))
  = Returned (errorString "helm: timeout").
Proof.
  destruct (RunE_installs Sample.kindProvider Sample2.worldInstallFails
              (initial 8000 Sample.noFlags None)
              (finalOpts ∅ (parseFlags 8000 Sample.noFlags) None)
              (or_introl eq_refl))
    as (port & lc & Hused & Hnew & _ & _ & Hres).
  injection Hused as <-. injection Hnew as <-. exact Hres.
Defined.


(** X19.  The port [local.New] is called with is the provided port,
    unless an existing kind cluster is validated and the docker client
    reads another port from its control-plane container without error; in
    every case it is the value of [flagPort] when [RunE] ends. *)
Theorem RunE_port_used (provider : k8s.Provider) (W : World) (s : State)
    (port : Z) :
  In port (portsUsed (events_of (RunE provider W s))) ->
  port = flagPort (flags (state_of (RunE provider W s)))
  /\ (port = flagPort (flags s)
      \/ (k8s.Name provider = k8s.Kind
          /\ exists (cluster : k8s.Cluster) (client : docker.Docker),
               provider_Cluster W = inr cluster
               /\ k8s.Exists cluster = true
               /\ clientForCheck W s = Some client
               /\ docker.Port client (k8s.ClusterName provider ++ "-control-plane")
                  = (port, None))).
Proof.
  destruct s as [f dc]. unfold clientForCheck. revert port.
  by_paths; intros port Hin; read_trace; which_member; subst port;
    (split; [done|]); try (by left); right; (split; [done|]);
    eexists _, _; repeat split; try done;
    match goal with
    | H : docker_New W = _ |- _ => by rewrite H
    | _ => done
    end.
Qed.

Lemma RunE_port_used_witness :
  8001 = flagPort (flags (state_of
            (RunE Sample.kindProvider
               (Sample.world ∅ Sample.existingCluster (Sample.dockerOn 8001))
               (initial 8000 Sample.noFlags None)))).
Proof.
  apply (RunE_port_used Sample.kindProvider
           (Sample.world ∅ Sample.existingCluster (Sample.dockerOn 8001))
           (initial 8000 Sample.noFlags None) 8001).
  left. reflexivity.
Defined.

Lemma RunE_nil (provider : k8s.Provider) (W : World) (s : State) :
  result_of (RunE provider W s) = Next tt ->
  existenceQueries (events_of (RunE provider W s)) = [tt]
  /\ exists (port : Z) (lc : local.Command) (opts : local.InstallOpts),
       portsUsed (events_of (RunE provider W s)) = [port]
       /\ local_New W port = inr lc
       /\ installs (events_of (RunE provider W s)) = [opts]
       /\ local.Install lc opts = None.
Proof.
  destruct s as [f dc].
  by_paths; intros Hnil; try discriminate Hnil; (split; [done|]);
    eexists _, _, _; repeat split; eassumption.
Qed.

(** X20.  An execution returns [nil] only after the whole sequence: both
    pre-checks passed on the requested port, the flag group was accepted,
    the cluster was looked up once, [local.New] succeeded, and the
    installer was invoked once and returned [nil]. *)
Theorem Execute_nil (IngressPort : Z) (provider : k8s.Provider)
    (W : World) (cl : CommandLine) (dockerClient0 : option docker.Docker) :
  let run := Execute IngressPort provider W cl dockerClient0 in
  result_of run = Next tt ->
  cobra.ValidateFlagGroups cl = None
  /\ portChecks (events_of run) = [default IngressPort (arg_port cl)]
  /\ existenceQueries (events_of run) = [tt]
  /\ exists (port : Z) (lc : local.Command) (opts : local.InstallOpts),
       portsUsed (events_of run) = [port]
       /\ local_New W port = inr lc
       /\ installs (events_of run) = [opts]
       /\ local.Install lc opts = None.
Proof.
  intros run Hnil.
  destruct (Execute_run IngressPort provider W cl dockerClient0)
    as (r1 & s1 & evs1 & evs2 & Hpre & Hflags & Hevs & Hq & Hc & Hi & Hu & Hcases).
  fold run in Hevs, Hcases.
  destruct Hcases as [(-> & Hval & Hrun & ->)|[_ [err Herr]]]; [|congruence].
  destruct (PreRunE_run W (initial IngressPort cl dockerClient0))
    as (r1' & s1' & evs1' & Hpre' & _ & _ & _ & _ & _ & Hchecked).
  rewrite Hpre in Hpre'. injection Hpre' as <- <- <-.
  destruct (Hchecked eq_refl) as (Hport & _).
  destruct (RunE_run provider W s1) as (r & s' & evs & HR & _ & Hp2 & _).
  rewrite Hrun in Hnil. unfold result_of in Hnil. simpl in Hnil.
  destruct (RunE_nil provider W s1 Hnil)
    as (Hq2 & port & lc & opts & Hu2 & Hnew & Hi2 & Hinst).
  assert (portChecks (events_of (RunE provider W s1)) = []) as Hp3
    by (by rewrite HR).
  rewrite Hevs. autorewrite with trace.
  rewrite Hq, Hi, Hu, Hport, Hp3, Hq2, Hu2, Hi2. simpl.
  repeat split; try done. by exists port, lc, opts.
Qed.

Lemma Execute_nil_witness :
  portChecks (events_of
     (Execute 8000 Sample.kindProvider
        (Sample.world ∅ Sample.noCluster (Sample.dockerOn 8000))
        Sample.port9000 None)) = [9000]
  /\ existenceQueries (events_of
       (Execute 8000 Sample.kindProvider
          (Sample.world ∅ Sample.noCluster (Sample.dockerOn 8000))
          Sample.port9000 None)) = [tt].
Proof.
  destruct (Execute_nil 8000 Sample.kindProvider
              (Sample.world ∅ Sample.noCluster (Sample.dockerOn 8000))
              Sample.port9000 None eq_refl)
    as (_ & Hport & Hquery & _).
  split; [exact Hport|exact Hquery].
Defined.

Lemma PreRunE_once (W : World) (s : State) :
  let evs := events_of (PreRunE W s) in
  (length (portChecks evs) <= 1)%nat
  /\ connections evs = [] /\ portQueries evs = [].
Proof.
  unfold PreRunE. run. repeat (next_answer; run); read_trace; repeat split; lia.
Qed.

Lemma RunE_once (provider : k8s.Provider) (W : World) (s : State) :
  let evs := events_of (RunE provider W s) in
  portChecks evs = []
  /\ (length (existenceQueries evs) <= 1)%nat
  /\ (length (connections evs) <= 1)%nat
  /\ (length (portQueries evs) <= 1)%nat
  /\ (length (creations evs) <= 1)%nat
  /\ (length (portsUsed evs) <= 1)%nat
  /\ (length (installs evs) <= 1)%nat.
Proof.
  destruct s as [f dc]. simpl.
  all_paths; read_trace; repeat split; lia.
Qed.

(** X21.  Nothing is retried: in one execution each collaborator is
    called at most once - the port pre-check, the cluster lookup, the
    connection to docker, the port query, the cluster creation,
    [local.New] and the installer. *)
Theorem Execute_once (IngressPort : Z) (provider : k8s.Provider)
    (W : World) (cl : CommandLine) (dockerClient0 : option docker.Docker) :
  let evs := events_of (Execute IngressPort provider W cl dockerClient0) in
  (length (portChecks evs) <= 1)%nat
  /\ (length (existenceQueries evs) <= 1)%nat
  /\ (length (connections evs) <= 1)%nat
  /\ (length (portQueries evs) <= 1)%nat
  /\ (length (creations evs) <= 1)%nat
  /\ (length (portsUsed evs) <= 1)%nat
  /\ (length (installs evs) <= 1)%nat.
Proof.
  destruct (Execute_run IngressPort provider W cl dockerClient0)
    as (r1 & s1 & evs1 & evs2 & Hpre & _ & Hevs & Hq & Hc & Hi & Hu & Hcases).
  pose proof (PreRunE_once W (initial IngressPort cl dockerClient0))
    as (Hp1 & Hconn1 & Hpq1).
  rewrite Hpre in Hp1, Hconn1, Hpq1. unfold events_of in Hp1, Hconn1, Hpq1.
  simpl in Hp1, Hconn1, Hpq1.
  assert (portChecks evs2 = []
          /\ (length (existenceQueries evs2) <= 1)%nat
          /\ (length (connections evs2) <= 1)%nat
          /\ (length (portQueries evs2) <= 1)%nat
          /\ (length (creations evs2) <= 1)%nat
          /\ (length (portsUsed evs2) <= 1)%nat
          /\ (length (installs evs2) <= 1)%nat)
    as (Hp2 & Hq2 & Hconn2 & Hpq2 & Hc2 & Hu2 & Hi2).
  { destruct Hcases as [(_ & _ & _ & ->)|[-> _]].
    - apply RunE_once.
    - repeat split; simpl; lia. }
  simpl. rewrite Hevs. autorewrite with trace.
  unfold connections, portQueries in *. rewrite !omap_app.
  rewrite Hq, Hc, Hi, Hu, Hp2, Hconn1, Hpq1, !length_app. simpl.
  repeat split; lia.
Qed.

Lemma finalOpts_pass_through (environ : gmap string string) (f : Flags)
    (dc : option docker.Docker) :
  local.Host (finalOpts environ f dc) = flagHost f
  /\ local.ValuesFile (finalOpts environ f dc) = flagChartValuesFile f
  /\ local.Secrets (finalOpts environ f dc) = flagChartSecrets f
  /\ local.Migrate (finalOpts environ f dc) = flagMigrate f
  /\ local.NoBrowser (finalOpts environ f dc) = flagNoBrowser f
  /\ local.LowResourceMode (finalOpts environ f dc) = flagLowResourceMode f
  /\ local.InsecureCookies (finalOpts environ f dc) = flagInsecureCookies f.
Proof.
  unfold finalOpts, normalizeChartVersion. simpl.
  by destruct (String.eqb (flagChartVersion f) "latest").
Qed.

(** X22.  The installer receives the host, the values file, the secret
    files, the migrate flag and the three toggles exactly as given on the
    command line, and their declared defaults for the flags left out:
    [localhost], no values file, no secret file, and [false] for the four
    booleans. *)
Theorem Execute_options (IngressPort : Z) (provider : k8s.Provider)
    (W : World) (cl : CommandLine) (dockerClient0 : option docker.Docker)
    (opts : local.InstallOpts) :
  In opts (installs (events_of (Execute IngressPort provider W cl dockerClient0))) ->
  local.Host opts = default "localhost" (arg_host cl)
  /\ local.ValuesFile opts = default EmptyString (arg_values cl)
  /\ local.Secrets opts = default [] (arg_secret cl)
  /\ local.Migrate opts = default false (arg_migrate cl)
  /\ local.NoBrowser opts = default false (arg_no_browser cl)
  /\ local.LowResourceMode opts = default false (arg_low_resource_mode cl)
  /\ local.InsecureCookies opts = default false (arg_insecure_cookies cl).
Proof.
  intros Hin.
  destruct (Execute_installs IngressPort provider W cl dockerClient0 opts Hin)
    as (_ & dc & ->).
  apply finalOpts_pass_through.
Qed.

Lemma Execute_options_witness :
  local.Host (finalOpts ∅ (parseFlags 8000 Sample2.customised) None)
  = "airbyte.local"
  /\ local.Secrets (finalOpts ∅ (parseFlags 8000 Sample2.customised) None)
     = ["s1.yaml"]
  /\ local.NoBrowser (finalOpts ∅ (parseFlags 8000 Sample2.customised) None)
     = false.
Proof.
  destruct (Execute_options 8000 Sample.kindProvider
              (Sample.world ∅ Sample.noCluster (Sample.dockerOn 8000))
              Sample2.customised None
              (finalOpts ∅ (parseFlags 8000 Sample2.customised) None)
              (or_introl eq_refl))
    as (Hhost & _ & Hsecrets & _ & Hbrowser & _).
  split; [exact Hhost|split; [exact Hsecrets|exact Hbrowser]].
Defined.
